(** * Potential-flow field evaluator and particle advection

    A shallow embedding of the velocity/pressure kernels of [fluid_sim.go]
    (the compiled evaluator) and of [updateParticles] / [updateVelocitiesJS]
    in [main.js] (the scalar evaluator and the advection loop).

    Numbers.  Both programs compute in IEEE binary64 and store into
    [Float32Array]s.  The embedding takes the exact-arithmetic reading of
    the formulas: every number is a real ([R]), [Math.sqrt]/[math.Sqrt] is
    [sqrt], [Math.pow x 2] and [Math.pow x 3] are [x ^ 2] and [x ^ 3], and
    the circular functions are those of the real library.  Rounding,
    NaN/infinity and signed zeros are outside the model.  The one division
    the programs do not guard, the airfoil z term divided by
    [radius * freeStreamVelocity], yields NaN in the programs when the
    free-stream speed is zero; the statements that bound every position
    after a tick exclude that case. *)

From Stdlib Require Import Reals Lra Psatz ZArith String List.
From stdpp Require Import base list.

Open Scope R_scope.

(** ** Numeric helpers *)

Definition Vec3 : Type := (R * R * R)%type.

#[global] Instance Rgt_decision (a b : R) : Decision (a > b) := Rgt_dec a b.

(** [Math.atan2 y x] on the reals (quadrant-aware arctangent, [0] at the
    origin). *)
Definition atan2 (y x : R) : R :=
  if Rlt_dec 0 x then atan (y / x)
  else if Rlt_dec x 0 then
    (if Rle_dec 0 y then atan (y / x) + PI else atan (y / x) - PI)
  else if Rlt_dec 0 y then PI / 2
  else if Rlt_dec y 0 then - (PI / 2)
  else 0.

(** ** Typed arrays and loops *)

(** A [Float32Array] is a list of numbers.  A write out of range is
    ignored (as in JavaScript, and as stdpp's insert does).  A read out of
    range yields [undefined] in JavaScript, which the arithmetic turns into
    NaN; the model reads [0] there, and every statement below is about
    arrays that hold three entries per particle. *)
Definition getf (a : list R) (i : nat) : R := default 0 (a !! i).

(** [for (let i = start; i < start + n; i++) body] *)
Fixpoint forLoop {St : Type} (body : nat -> St -> St) (start n : nat) (s : St) : St :=
  match n with
  | O => s
  | S n' => forLoop body (S start) n' (body start s)
  end.

(** The three entries of particle [i] in a flat array. *)
Definition get3 (a : list R) (i : nat) : Vec3 :=
  (getf a (i * 3), getf a (i * 3 + 1), getf a (i * 3 + 2)).

(** Euclidean norm of a vector. *)
Definition norm3 (v : Vec3) : R :=
  let '(vx, vy, vz) := v in sqrt (vx * vx + vy * vy + vz * vz).

(** Componentwise agreement within relative error [eps]. *)
Definition relClose (eps a b : R) : Prop :=
  Rabs (a - b) <= eps * Rmax (Rabs a) (Rabs b).

Definition relClose3 (eps : R) (u v : Vec3) : Prop :=
  let '(ux, uy, uz) := u in
  let '(vx, vy, vz) := v in
  relClose eps ux vx /\ relClose eps uy vy /\ relClose eps uz vz.

(** ** The compiled evaluator: [fluid_sim.go] *)

Module Go.

Definition SPHERE : Z := 0.
Definition CYLINDER : Z := 1.
Definition AIRFOIL : Z := 2.

(** The local [pressure] of the cylinder case. *)
Definition cylinderPressure (freeStreamVelocity fluidDensity vx vy : R) : R :=
  fluidDensity * (0.5 * freeStreamVelocity * freeStreamVelocity
                  - 0.5 * (vx * vx + vy * vy)).

(** Body of the [for] loop of [updateVelocities] once the relative
    position [(x, y, z)] has been extracted (lines 56-121). *)
Definition velocityAt (freeStreamVelocity fluidDensity : R)
    (objectType : Z) (objectRadius : R) (x y z : R) : Vec3 :=
  let r := sqrt (x * x + y * y + z * z) in
  let vx := freeStreamVelocity in
  let vy := 0 in
  let vz := 0 in
  if decide (r > objectRadius) then
    if (objectType =? SPHERE)%Z then
      let factor := objectRadius ^ 3 / r ^ 3 in
      (freeStreamVelocity * (1 - factor * (3 * x * x / (2 * r * r) - 0.5)),
       freeStreamVelocity * (- factor * 3 * x * y / (2 * r * r)),
       freeStreamVelocity * (- factor * 3 * x * z / (2 * r * r)))
    else if (objectType =? CYLINDER)%Z then
      let rxy := sqrt (x * x + y * y) in
      if decide (rxy > objectRadius) then
        let factor := (objectRadius / rxy) ^ 2 in
        let vx := freeStreamVelocity * (1 - factor * (2 * x * x / (rxy * rxy) - 1)) in
        let vy := freeStreamVelocity * (- factor * 2 * x * y / (rxy * rxy)) in
        let pressure := cylinderPressure freeStreamVelocity fluidDensity vx vy in
        (vx, vy, vz + z * pressure * 0.01)
      else (0, 0, 0)
    else if (objectType =? AIRFOIL)%Z then
      let rxy := sqrt (x * x + y * y) in
      let angle := atan2 y x in
      let circulation := freeStreamVelocity * 4 * PI * objectRadius * sin angle in
      if decide (rxy > objectRadius) then
        let factor := (objectRadius / rxy) ^ 2 in
        let vx := freeStreamVelocity * (1 - factor * cos (2 * angle)) in
        let vy := freeStreamVelocity * (- factor * sin (2 * angle))
                  + circulation / (2 * PI * rxy) in
        (vx, vy, 0.1 * z * (vx * vx + vy * vy) / (objectRadius * freeStreamVelocity))
      else (0, 0, 0)
    else (vx, vy, vz)
  else (0, 0, 0).

(** [updateVelocities]: one pass over the flat position array, writing
    into a fresh result array of [count * 3] entries.  ([Index] past the end
    of [positionsJS] makes [Float] panic; the statements below are about
    position arrays of [count * 3] entries.) *)
Definition updateVelocities (positionsJS : list R) (count : nat)
    (freeStreamVelocity fluidDensity objectX objectY objectZ : R)
    (objectType : Z) (objectRadius : R) : list R :=
  forLoop
    (fun i resultJS =>
       let idx := (i * 3)%nat in
       let x := getf positionsJS idx - objectX in
       let y := getf positionsJS (idx + 1) - objectY in
       let z := getf positionsJS (idx + 2) - objectZ in
       let '(vx, vy, vz) :=
         velocityAt freeStreamVelocity fluidDensity objectType objectRadius x y z in
       <[(idx + 2)%nat := vz]> (<[(idx + 1)%nat := vy]> (<[idx := vx]> resultJS)))
    0 count (replicate (count * 3) 0).

(** Body of the loop of [calculatePressure] (lines 144-156). *)
Definition pressureAt (freeStreamVelocity fluidDensity : R) (v : Vec3) : R :=
  let pRef := 0.5 * fluidDensity * freeStreamVelocity * freeStreamVelocity in
  let '(vx, vy, vz) := v in
  let v2 := vx * vx + vy * vy + vz * vz in
  pRef - 0.5 * fluidDensity * v2.

Definition calculatePressure (velocitiesJS : list R) (count : nat)
    (freeStreamVelocity fluidDensity : R) : list R :=
  forLoop
    (fun i resultJS =>
       let idx := (i * 3)%nat in
       let vx := getf velocitiesJS idx in
       let vy := getf velocitiesJS (idx + 1) in
       let vz := getf velocitiesJS (idx + 2) in
       <[i := pressureAt freeStreamVelocity fluidDensity (vx, vy, vz)]> resultJS)
    0 count (replicate count 0).

End Go.

(** ** The scalar evaluator and the advection loop: [main.js] *)

Module JS.

Open Scope string_scope.

(** The kind code handed to the compiled evaluator (lines 1070-1071). *)
Definition kindCode (objectType : string) : Z :=
  if String.eqb objectType "sphere" then 0%Z
  else if String.eqb objectType "cylinder" then 1%Z
  else 2%Z.

(** Target velocity of one particle in [updateVelocitiesJS], before the
    damping step (lines 1203-1270).  [radius] is the function's local
    constant. *)
Definition targetVelocity (freeStreamVelocity fluidDensity : R)
    (objectType : string) (x y z : R) : Vec3 :=
  let radius := 1 in
  let r := sqrt (x * x + y * y + z * z) in
  let vx := freeStreamVelocity in
  let vy := 0 in
  let vz := 0 in
  if decide (r > radius) then
    if String.eqb objectType "sphere" then
      let factorSphere := radius ^ 3 / r ^ 3 in
      (freeStreamVelocity * (1 - factorSphere * (3 * x * x / (2 * r * r) - 0.5)),
       freeStreamVelocity * (- factorSphere * 3 * x * y / (2 * r * r)),
       freeStreamVelocity * (- factorSphere * 3 * x * z / (2 * r * r)))
    else if String.eqb objectType "cylinder" then
      let rxyC := sqrt (x * x + y * y) in
      if decide (rxyC > radius) then
        let factorCyl := (radius / rxyC) ^ 2 in
        let vx := freeStreamVelocity * (1 - factorCyl * (2 * x * x / (rxyC * rxyC) - 1)) in
        let vy := freeStreamVelocity * (- factorCyl * 2 * x * y / (rxyC * rxyC)) in
        let pressure :=
          fluidDensity * (0.5 * freeStreamVelocity * freeStreamVelocity
                          - 0.5 * (vx * vx + vy * vy)) in
        (vx, vy, vz + z * pressure * 0.01)
      else (0, 0, 0)
    else if String.eqb objectType "airfoil" then
      let rxyA := sqrt (x * x + y * y) in
      let angle := atan2 y x in
      let circulation := freeStreamVelocity * 4 * PI * radius * sin angle in
      if decide (rxyA > radius) then
        let factor := (radius / rxyA) ^ 2 in
        let vx := freeStreamVelocity * (1 - factor * cos (2 * angle)) in
        let vy := freeStreamVelocity * (- factor * sin (2 * angle))
                  + circulation / (2 * PI * rxyA) in
        (vx, vy, 0.1 * z * (vx * vx + vy * vy) / (radius * freeStreamVelocity))
      else (0, 0, 0)
    else (vx, vy, vz)
  else (0, 0, 0).

Record SimulationParams := {
  freeStreamVelocity : R;
  particleCount : nat;
  fluidDensity : R;
  objectType : string
}.

(** [particles.geometry.attributes.position.array] and
    [particles.userData.velocities]. *)
Record Particles := {
  positions : list R;
  velocities : list R
}.

Record Tunnel := {
  entryX : R;
  exitX : R;
  width : R;
  height : R
}.

(** The dimensions stored by [initializeParticles], which are also the
    fallback literal of [updateParticles]. *)
Definition defaultTunnel : Tunnel :=
  {| entryX := -10; exitX := 10; width := 8; height := 8 |}.

(** The globals read or written by a tick.  [particles] and
    [simulationObject] may be unset; [randomCursor] counts the draws made
    from [Math.random] so far. *)
Record World := {
  particles : option Particles;
  simulationObject : option Vec3;
  simulationParams : SimulationParams;
  tunnelDimensions : option Tunnel;
  wasmLoaded : bool;
  wasmModule : bool;
  updateVelocitiesIsFunction : bool;
  randomCursor : nat
}.

(** What a call of [window.updateVelocities] does: it returns the result
    array, or throws ([None]). *)
Definition CompiledCall : Type :=
  list R -> nat -> R -> R -> R -> R -> R -> Z -> R -> option (list R).

(** The compiled evaluator when the Go program runs normally. *)
Definition goEvaluator : CompiledCall :=
  fun positions count U rho ox oy oz kind radius =>
    Some (Go.updateVelocities positions count U rho ox oy oz kind radius).

(** [updateVelocitiesJS] (lines 1188-1277): damped update of every
    particle's velocity toward its target. *)
Definition updateVelocitiesJS (params : SimulationParams) (objectPos : Vec3)
    (ps : Particles) : Particles :=
  let '(ox, oy, oz) := objectPos in
  let positions := positions ps in
  {| positions := positions;
     velocities :=
       forLoop
         (fun i velocities =>
            let idx := (i * 3)%nat in
            let x := getf positions idx - ox in
            let y := getf positions (idx + 1) - oy in
            let z := getf positions (idx + 2) - oz in
            let '(vx, vy, vz) :=
              targetVelocity (freeStreamVelocity params) (fluidDensity params)
                (objectType params) x y z in
            let velocities :=
              <[idx := getf velocities idx * 0.95 + vx * 0.05]> velocities in
            let velocities :=
              <[(idx + 1)%nat := getf velocities (idx + 1) * 0.95 + vy * 0.05]> velocities in
            <[(idx + 2)%nat := getf velocities (idx + 2) * 0.95 + vz * 0.05]> velocities)
         0 (particleCount params) (velocities ps) |}.

(** The loop of the compiled branch (lines 1075-1080): the result array is
    copied over the velocities. *)
Definition copyVelocities (count : nat) (velocityResults : list R)
    (ps : Particles) : Particles :=
  {| positions := positions ps;
     velocities :=
       forLoop
         (fun i velocities =>
            let idx := (i * 3)%nat in
            let velocities := <[idx := getf velocityResults idx]> velocities in
            let velocities :=
              <[(idx + 1)%nat := getf velocityResults (idx + 1)]> velocities in
            <[(idx + 2)%nat := getf velocityResults (idx + 2)]> velocities)
         0 count (velocities ps) |}.

(** The guard of line 1060. *)
Definition compiledSelected (w : World) : bool :=
  wasmLoaded w && wasmModule w && updateVelocitiesIsFunction w.

(** Lines 1059-1087: the compiled evaluator when it is selected and does
    not throw, the scalar one otherwise. *)
Definition velocityPhase (compiled : CompiledCall) (params : SimulationParams)
    (objectPos : Vec3) (selected : bool) (ps : Particles) : Particles :=
  if selected then
    let '(ox, oy, oz) := objectPos in
    match compiled (positions ps) (particleCount params)
            (freeStreamVelocity params) (fluidDensity params) ox oy oz
            (kindCode (objectType params)) 1 with
    | Some velocityResults => copyVelocities (particleCount params) velocityResults ps
    | None => updateVelocitiesJS params objectPos ps
    end
  else updateVelocitiesJS params objectPos ps.

Section Random.

(** The sequence of values that [Math.random] returns during the run. *)
Variable random : nat -> R.

(** Body of the position loop (lines 1091-1118), on the two arrays and the
    number of random draws made so far. *)
Definition advectBody (tunnel : Tunnel) (U dt : R) (i : nat)
    (st : list R * list R * nat) : list R * list R * nat :=
  let '(positions, velocities, k) := st in
  let idx := (i * 3)%nat in
  let positions := <[idx := getf positions idx + getf velocities idx * dt]> positions in
  let positions :=
    <[(idx + 1)%nat := getf positions (idx + 1) + getf velocities (idx + 1) * dt]> positions in
  let positions :=
    <[(idx + 2)%nat := getf positions (idx + 2) + getf velocities (idx + 2) * dt]> positions in
  if bool_decide (getf positions idx > exitX tunnel)
     || bool_decide (Rabs (getf positions (idx + 1)) > width tunnel / 2)
     || bool_decide (Rabs (getf positions (idx + 2)) > height tunnel / 2)
  then
    let positions := <[idx := entryX tunnel]> positions in
    let '(positions, k) :=
      if bool_decide (Rabs (getf positions (idx + 1)) > width tunnel / 2)
         || bool_decide (Rabs (getf positions (idx + 2)) > height tunnel / 2)
      then
        let positions :=
          <[(idx + 1)%nat := (random k - 0.5) * width tunnel * 0.8]> positions in
        let positions :=
          <[(idx + 2)%nat := (random (S k) - 0.5) * height tunnel * 0.8]> positions in
        (positions, S (S k))
      else (positions, k) in
    let velocities := <[idx := U]> velocities in
    let velocities := <[(idx + 1)%nat := 0]> velocities in
    let velocities := <[(idx + 2)%nat := 0]> velocities in
    (positions, velocities, k)
  else (positions, velocities, k).

(** Lines 1089-1119. *)
Definition advect (tunnel : Tunnel) (params : SimulationParams)
    (ps : Particles) (k : nat) : Particles * nat :=
  let dt := 0.01 in
  let '(positions, velocities, k) :=
    forLoop (advectBody tunnel (freeStreamVelocity params) dt)
      0 (particleCount params) (positions ps, velocities ps, k) in
  ({| positions := positions; velocities := velocities |}, k).

(** [updateParticles] (lines 1044-1122): one tick. *)
Definition updateParticles (compiled : CompiledCall) (w : World) : World :=
  match particles w, simulationObject w with
  | Some ps, Some objectPos =>
      let tunnel := default defaultTunnel (tunnelDimensions w) in
      let ps := velocityPhase compiled (simulationParams w) objectPos
                  (compiledSelected w) ps in
      let '(ps, k) := advect tunnel (simulationParams w) ps (randomCursor w) in
      {| particles := Some ps;
         simulationObject := simulationObject w;
         simulationParams := simulationParams w;
         tunnelDimensions := tunnelDimensions w;
         wasmLoaded := wasmLoaded w;
         wasmModule := wasmModule w;
         updateVelocitiesIsFunction := updateVelocitiesIsFunction w;
         randomCursor := k |}
  | _, _ => w
  end.

(** Body of the first loop of [initializeParticles] (lines 942-952), on
    the position array, the colour array and the number of random draws
    made so far.  [tunnel] is the function's local literal: the stored
    dimensions with [length: 20]. *)
Definition seedBody (i : nat) (st : list R * list R * nat) : list R * list R * nat :=
  let '(particlePositions, particleColors, k) := st in
  let tunnel := defaultTunnel in
  let tunnelLength := 20 in
  let particlePositions :=
    <[(i * 3)%nat := entryX tunnel + random k * tunnelLength]> particlePositions in
  let particlePositions :=
    <[(i * 3 + 1)%nat := - width tunnel / 2 + random (k + 1) * width tunnel]>
      particlePositions in
  let particlePositions :=
    <[(i * 3 + 2)%nat := - height tunnel / 2 + random (k + 2) * height tunnel]>
      particlePositions in
  let particleColors := <[(i * 3)%nat := 0.1 + random (k + 3) * 0.1]> particleColors in
  let particleColors :=
    <[(i * 3 + 1)%nat := 0.3 + random (k + 4) * 0.3]> particleColors in
  let particleColors :=
    <[(i * 3 + 2)%nat := 0.7 + random (k + 5) * 0.3]> particleColors in
  (particlePositions, particleColors, (k + 6)%nat).

(** [initializeParticles] (lines 916-979): fresh arrays for the current
    particle count, random positions in the tunnel, free-stream velocities;
    the tunnel dimensions are stored unless some are stored already.  The
    second component is the colour array handed to the renderer. *)
Definition initializeParticles (w : World) : World * list R :=
  let params := simulationParams w in
  let count := particleCount params in
  let '(particlePositions, particleColors, k) :=
    forLoop seedBody 0 count
      (replicate (count * 3) 0, replicate (count * 3) 0, randomCursor w) in
  let velocities :=
    forLoop
      (fun i velocities =>
         let velocities := <[(i * 3)%nat := freeStreamVelocity params]> velocities in
         let velocities := <[(i * 3 + 1)%nat := 0]> velocities in
         <[(i * 3 + 2)%nat := 0]> velocities)
      0 count (replicate (count * 3) 0) in
  ({| particles := Some {| positions := particlePositions; velocities := velocities |};
      simulationObject := simulationObject w;
      simulationParams := params;
      tunnelDimensions := Some (default defaultTunnel (tunnelDimensions w));
      wasmLoaded := wasmLoaded w;
      wasmModule := wasmModule w;
      updateVelocitiesIsFunction := updateVelocitiesIsFunction w;
      randomCursor := k |},
   particleColors).

(** The position three.js gives a newly created mesh; the library is not
    part of the repository. *)
Variable newMeshPosition : Vec3.

(** [createSimulationObject] (lines 848-881): a new mesh, at the position
    the library gives it. *)
Definition createSimulationObject (w : World) : World :=
  {| particles := particles w;
     simulationObject := Some newMeshPosition;
     simulationParams := simulationParams w;
     tunnelDimensions := tunnelDimensions w;
     wasmLoaded := wasmLoaded w;
     wasmModule := wasmModule w;
     updateVelocitiesIsFunction := updateVelocitiesIsFunction w;
     randomCursor := randomCursor w |}.

Definition setParams (params : SimulationParams) (w : World) : World :=
  {| particles := particles w;
     simulationObject := simulationObject w;
     simulationParams := params;
     tunnelDimensions := tunnelDimensions w;
     wasmLoaded := wasmLoaded w;
     wasmModule := wasmModule w;
     updateVelocitiesIsFunction := updateVelocitiesIsFunction w;
     randomCursor := randomCursor w |}.

(** The page: the globals of a tick and the [isSimulating] flag. *)
Record App := {
  world : World;
  isSimulating : bool
}.

(** What can happen to the page: the listeners of [initControls]
    (lines 1339-1420), an animation frame ([animate], lines 834-846, with
    what the compiled evaluator would do in that frame), and the end of
    [loadWasmModule] (lines 1279-1336), which writes nothing but the three
    flags of the compiled evaluator (any values are allowed here). *)
Inductive Event :=
| VelocityInput (value : R)
| ParticlesInput (value : nat)
| DensityInput (value : R)
| SphereClick
| CylinderClick
| AirfoilClick
| ToggleClick
| Frame (compiled : CompiledCall)
| WasmLoadEnds (loaded instantiated callable : bool).

Definition selectObject (kind : string) (a : App) : App :=
  let w := world a in
  let params := simulationParams w in
  {| world :=
       createSimulationObject
         (setParams {| freeStreamVelocity := freeStreamVelocity params;
                       particleCount := particleCount params;
                       fluidDensity := fluidDensity params;
                       objectType := kind |} w);
     isSimulating := isSimulating a |}.

Definition handle (e : Event) (a : App) : App :=
  let w := world a in
  let params := simulationParams w in
  match e with
  | VelocityInput value =>
      {| world := setParams {| freeStreamVelocity := value;
                               particleCount := particleCount params;
                               fluidDensity := fluidDensity params;
                               objectType := objectType params |} w;
         isSimulating := isSimulating a |}
  | ParticlesInput value =>
      let w := setParams {| freeStreamVelocity := freeStreamVelocity params;
                            particleCount := value;
                            fluidDensity := fluidDensity params;
                            objectType := objectType params |} w in
      {| world := if isSimulating a then fst (initializeParticles w) else w;
         isSimulating := isSimulating a |}
  | DensityInput value =>
      {| world := setParams {| freeStreamVelocity := freeStreamVelocity params;
                               particleCount := particleCount params;
                               fluidDensity := value;
                               objectType := objectType params |} w;
         isSimulating := isSimulating a |}
  | SphereClick => selectObject "sphere" a
  | CylinderClick => selectObject "cylinder" a
  | AirfoilClick => selectObject "airfoil" a
  | ToggleClick =>
      if isSimulating a then {| world := w; isSimulating := false |}
      else {| world := fst (initializeParticles w); isSimulating := true |}
  | Frame compiled =>
      {| world :=
           if isSimulating a && bool_decide (is_Some (particles w))
           then updateParticles compiled w else w;
         isSimulating := isSimulating a |}
  | WasmLoadEnds loaded instantiated callable =>
      {| world :=
           {| particles := particles w;
              simulationObject := simulationObject w;
              simulationParams := simulationParams w;
              tunnelDimensions := tunnelDimensions w;
              wasmLoaded := loaded;
              wasmModule := instantiated;
              updateVelocitiesIsFunction := callable;
              randomCursor := randomCursor w |};
         isSimulating := isSimulating a |}
  end.

(** The page once [DOMContentLoaded] has run [initScene],
    [createSimulationObject] and [initControls] (lines 1423-1439). *)
Definition startApp : App :=
  {| world :=
       createSimulationObject
         {| particles := None;
            simulationObject := None;
            simulationParams :=
              {| freeStreamVelocity := 1; particleCount := 5000;
                 fluidDensity := 1; objectType := "sphere" |};
            tunnelDimensions := None;
            wasmLoaded := false;
            wasmModule := false;
            updateVelocitiesIsFunction := false;
            randomCursor := 0 |};
     isSimulating := false |}.

(** The page after a sequence of events, oldest first. *)
Definition runEvents (events : list Event) (a : App) : App :=
  fold_left (fun a e => handle e a) events a.

End Random.

End JS.

(** ** The scalar evaluator of the repository's other copy of [main.js]
       (the variant without the wind tunnel) *)

Module Legacy.

Open Scope string_scope.

(** Target velocity of one particle in that copy's [updateVelocitiesJS]
    (lines 497-548): the [if (r > radius)] has no [else], the cylinder has
    no z term and the airfoil circulation uses 2 pi. *)
Definition targetVelocity (freeStreamVelocity : R)
    (objectType : string) (x y z : R) : Vec3 :=
  let radius := 1 in
  let r := sqrt (x * x + y * y + z * z) in
  let vx := freeStreamVelocity in
  let vy := 0 in
  let vz := 0 in
  if decide (r > radius) then
    if String.eqb objectType "sphere" then
      let factorSphere := radius ^ 3 / r ^ 3 in
      (freeStreamVelocity * (1 - factorSphere * (3 * x * x / (2 * r * r) - 0.5)),
       freeStreamVelocity * (- factorSphere * 3 * x * y / (2 * r * r)),
       freeStreamVelocity * (- factorSphere * 3 * x * z / (2 * r * r)))
    else if String.eqb objectType "cylinder" then
      let rxy := sqrt (x * x + y * y) in
      if decide (rxy > radius) then
        let factorCyl := (radius / rxy) ^ 2 in
        (freeStreamVelocity * (1 - factorCyl * (2 * x * x / (rxy * rxy) - 1)),
         freeStreamVelocity * (- factorCyl * 2 * x * y / (rxy * rxy)),
         vz)
      else (0, 0, vz)
    else if String.eqb objectType "airfoil" then
      let angle := atan2 y x in
      let circulation := freeStreamVelocity * 2 * PI * radius * sin angle in
      let rxy2 := sqrt (x * x + y * y) in
      if decide (rxy2 > radius) then
        let factorAirfoil := (radius / rxy2) ^ 2 in
        (freeStreamVelocity * (1 - factorAirfoil * cos (2 * angle)),
         freeStreamVelocity * (- factorAirfoil * sin (2 * angle))
           + circulation / (2 * PI * rxy2),
         0)
      else (0, 0, 0)
    else (vx, vy, vz)
  else (vx, vy, vz).

(** The older [updateVelocitiesJS] as a whole (lines 483-555). *)
Definition updateVelocitiesJS (params : JS.SimulationParams) (objectPos : Vec3)
    (ps : JS.Particles) : JS.Particles :=
  let '(ox, oy, oz) := objectPos in
  let positions := JS.positions ps in
  {| JS.positions := positions;
     JS.velocities :=
       forLoop
         (fun i velocities =>
            let idx := (i * 3)%nat in
            let x := getf positions idx - ox in
            let y := getf positions (idx + 1) - oy in
            let z := getf positions (idx + 2) - oz in
            let '(vx, vy, vz) :=
              targetVelocity (JS.freeStreamVelocity params) (JS.objectType params) x y z in
            let velocities :=
              <[idx := getf velocities idx * 0.95 + vx * 0.05]> velocities in
            let velocities :=
              <[(idx + 1)%nat := getf velocities (idx + 1) * 0.95 + vy * 0.05]> velocities in
            <[(idx + 2)%nat := getf velocities (idx + 2) * 0.95 + vz * 0.05]> velocities)
         0 (JS.particleCount params) (JS.velocities ps) |}.

(** Body of the position loop of the older [updateParticles]
    (lines 463-477): only the exit plane x = 10 is tested, and the
    velocity is left as it is. *)
Definition advectBody (random : nat -> R) (dt : R) (i : nat)
    (st : list R * list R * nat) : list R * list R * nat :=
  let '(positions, velocities, k) := st in
  let idx := (i * 3)%nat in
  let positions := <[idx := getf positions idx + getf velocities idx * dt]> positions in
  let positions :=
    <[(idx + 1)%nat := getf positions (idx + 1) + getf velocities (idx + 1) * dt]> positions in
  let positions :=
    <[(idx + 2)%nat := getf positions (idx + 2) + getf velocities (idx + 2) * dt]> positions in
  if decide (getf positions idx > 10) then
    let positions := <[idx := -10]> positions in
    let positions := <[(idx + 1)%nat := (random k - 0.5) * 8]> positions in
    let positions := <[(idx + 2)%nat := (random (S k) - 0.5) * 8]> positions in
    (positions, velocities, S (S k))
  else (positions, velocities, k).

(** Lines 431-460 of the older [updateParticles]: the compiled evaluator
    when it is selected and does not throw, the older scalar one
    otherwise. *)
Definition velocityPhase (compiled : JS.CompiledCall) (params : JS.SimulationParams)
    (objectPos : Vec3) (selected : bool) (ps : JS.Particles) : JS.Particles :=
  if selected then
    let '(ox, oy, oz) := objectPos in
    match compiled (JS.positions ps) (JS.particleCount params)
            (JS.freeStreamVelocity params) (JS.fluidDensity params) ox oy oz
            (JS.kindCode (JS.objectType params)) 1 with
    | Some velocityResults =>
        JS.copyVelocities (JS.particleCount params) velocityResults ps
    | None => updateVelocitiesJS params objectPos ps
    end
  else updateVelocitiesJS params objectPos ps.

(** The older [updateParticles] (lines 422-480). *)
Definition updateParticles (random : nat -> R) (compiled : JS.CompiledCall)
    (w : JS.World) : JS.World :=
  match JS.particles w, JS.simulationObject w with
  | Some ps, Some objectPos =>
      let params := JS.simulationParams w in
      let dt := 0.01 in
      let ps := velocityPhase compiled params objectPos (JS.compiledSelected w) ps in
      let '(positions, velocities, k) :=
        forLoop (advectBody random dt) 0 (JS.particleCount params)
          (JS.positions ps, JS.velocities ps, JS.randomCursor w) in
      {| JS.particles := Some {| JS.positions := positions; JS.velocities := velocities |};
         JS.simulationObject := JS.simulationObject w;
         JS.simulationParams := JS.simulationParams w;
         JS.tunnelDimensions := JS.tunnelDimensions w;
         JS.wasmLoaded := JS.wasmLoaded w;
         JS.wasmModule := JS.wasmModule w;
         JS.updateVelocitiesIsFunction := JS.updateVelocitiesIsFunction w;
         JS.randomCursor := k |}
  | _, _ => w
  end.

End Legacy.

(** ** The field slice of the visualisation script *)

Module FieldView.

Open Scope string_scope.

(** Velocity at one sample point in [calculateFieldColors]
    (lines 504-553), from the position relative to the obstacle. *)
Definition fieldVelocity (freeStreamVelocity : R) (objectType : string)
    (relX relY relZ : R) : Vec3 :=
  let radius := 1 in
  let r := sqrt (relX * relX + relY * relY + relZ * relZ) in
  let vx := freeStreamVelocity in
  let vy := 0 in
  let vz := 0 in
  if decide (r > radius) then
    if String.eqb objectType "sphere" then
      let factorSphere := radius ^ 3 / r ^ 3 in
      (freeStreamVelocity * (1 - factorSphere * (3 * relX * relX / (2 * r * r) - 0.5)),
       freeStreamVelocity * (- factorSphere * 3 * relX * relY / (2 * r * r)),
       freeStreamVelocity * (- factorSphere * 3 * relX * relZ / (2 * r * r)))
    else if String.eqb objectType "cylinder" then
      let rxy := sqrt (relX * relX + relY * relY) in
      if decide (rxy > radius) then
        let factorCyl := (radius / rxy) ^ 2 in
        (freeStreamVelocity * (1 - factorCyl * (2 * relX * relX / (rxy * rxy) - 1)),
         freeStreamVelocity * (- factorCyl * 2 * relX * relY / (rxy * rxy)),
         0)
      else (0, 0, 0)
    else if String.eqb objectType "airfoil" then
      let rxy := sqrt (relX * relX + relY * relY) in
      let angle := atan2 relY relX in
      let circulation := freeStreamVelocity * 4 * PI * radius * sin angle in
      if decide (rxy > radius) then
        let factor := (radius / rxy) ^ 2 in
        let vx := freeStreamVelocity * (1 - factor * cos (2 * angle)) in
        let vy := freeStreamVelocity * (- factor * sin (2 * angle))
                  + circulation / (2 * PI * rxy) in
        (vx, vy, 0.1 * relZ * (vx * vx + vy * vy) / (radius * freeStreamVelocity))
      else (0, 0, 0)
    else (vx, vy, vz)
  else (0, 0, 0).

(** The scalar shown at a sample point (lines 556-565): the speed in
    ['velocity'] mode, the Bernoulli pressure otherwise. *)
Definition fieldValue (mode : string) (freeStreamVelocity fluidDensity : R)
    (v : Vec3) : R :=
  let '(vx, vy, vz) := v in
  if String.eqb mode "velocity" then sqrt (vx * vx + vy * vy + vz * vz)
  else
    let v2 := vx * vx + vy * vy + vz * vz in
    let pRef := 0.5 * fluidDensity * freeStreamVelocity * freeStreamVelocity in
    pRef - 0.5 * fluidDensity * v2.

(** The colour of a sample whose value is [value], once the value range
    [minValue .. maxValue] is known (lines 592-605). *)
Definition fieldColor (mode : string) (minValue maxValue value : R) : Vec3 :=
  let t := (value - minValue) / (maxValue - minValue) in
  if String.eqb mode "velocity" then
    (Rmin 1 (t * 2), Rmin 1 (t * 2), Rmin 1 (2 - t * 2))
  else
    (Rmin 1 (t * 2), Rmin 1 (2 - Rabs (t - 0.5) * 4), Rmin 1 (2 - t * 2)).

(** [Math.min] and [Math.max] against a running extreme that starts at
    an infinity ([None]). *)
Definition minWith (minValue : option R) (value : R) : R :=
  match minValue with None => value | Some m => Rmin m value end.

Definition maxWith (maxValue : option R) (value : R) : R :=
  match maxValue with None => value | Some m => Rmax m value end.

(** The value of sample [i] (lines 493-565). *)
Definition sampleValue (mode : string) (params : JS.SimulationParams)
    (objectPos : Vec3) (positions : list R) (i : nat) : R :=
  let '(ox, oy, oz) := objectPos in
  let idx := (i * 3)%nat in
  let x := getf positions idx in
  let y := getf positions (idx + 1) in
  let z := getf positions (idx + 2) in
  fieldValue mode (JS.freeStreamVelocity params) (JS.fluidDensity params)
    (fieldVelocity (JS.freeStreamVelocity params) (JS.objectType params)
       (x - ox) (y - oy) (z - oz)).

(** The range the colours are normalised to (lines 575-585). *)
Definition valueRange (mode : string) (freeStreamVelocity fluidDensity : R)
    (minValue maxValue : R) : R * R :=
  if String.eqb mode "velocity" then (0, maxValue * 1.2)
  else
    let pRef := 0.5 * fluidDensity * freeStreamVelocity * freeStreamVelocity in
    let deviation := Rmax (Rabs (maxValue - pRef)) (Rabs (minValue - pRef)) in
    (pRef - deviation * 1.2, pRef + deviation * 1.2).

(** [calculateFieldColors] (lines 479-607): a first pass computes the
    sample values and their extremes, a second pass writes one colour per
    sample into [colors].  The obstacle position defaults to the origin
    while there is no obstacle; with no sample the extremes stay infinite
    and the second loop does not run. *)
Definition calculateFieldColors (mode : string) (params : JS.SimulationParams)
    (simulationObject : option Vec3) (positions colors : list R)
    (pointCount : nat) : list R :=
  let objectPos := default (0, 0, 0) simulationObject in
  let '(minValue, maxValue, values) :=
    forLoop
      (fun i (st : option R * option R * list R) =>
         let '(minValue, maxValue, values) := st in
         let value := sampleValue mode params objectPos positions i in
         (Some (minWith minValue value), Some (maxWith maxValue value),
          <[i := value]> values))
      0 pointCount (None, None, replicate pointCount 0) in
  match minValue, maxValue with
  | Some minValue, Some maxValue =>
      let '(minValue, maxValue) :=
        valueRange mode (JS.freeStreamVelocity params) (JS.fluidDensity params)
          minValue maxValue in
      forLoop
        (fun i colors =>
           let idx := (i * 3)%nat in
           let value := getf values i in
           let '(r, g, b) := fieldColor mode minValue maxValue value in
           <[(idx + 2)%nat := b]> (<[(idx + 1)%nat := g]> (<[idx := r]> colors)))
        0 pointCount colors
  | _, _ => colors
  end.

End FieldView.

(** ** Per-particle readings of the loops *)

(** The damping step of [updateVelocitiesJS] (lines 1273-1275). *)
Definition smooth (velocity target : Vec3) : Vec3 :=
  let '(ux, uy, uz) := velocity in
  let '(vx, vy, vz) := target in
  (ux * 0.95 + vx * 0.05, uy * 0.95 + vy * 0.05, uz * 0.95 + vz * 0.05).

(** The integration step [position += velocity * dt]. *)
Definition integrate (dt : R) (position velocity : Vec3) : Vec3 :=
  let '(px, py, pz) := position in
  let '(vx, vy, vz) := velocity in
  (px + vx * dt, py + vy * dt, pz + vz * dt).

(** The side condition of lines 1107-1108. *)
Definition lateralExit (t : JS.Tunnel) (p : Vec3) : Prop :=
  let '(_, y, z) := p in
  Rabs y > JS.width t / 2 \/ Rabs z > JS.height t / 2.

(** The recycle condition of lines 1099-1101. *)
Definition exitsTunnel (t : JS.Tunnel) (p : Vec3) : Prop :=
  let '(x, _, _) := p in
  x > JS.exitX t \/ lateralExit t p.

(** What one pass of the position loop does to one particle, given the
    two values [u1], [u2] that [Math.random] would return. *)
Definition advectParticle (t : JS.Tunnel) (U dt u1 u2 : R)
    (pv : Vec3 * Vec3) : Vec3 * Vec3 :=
  let '(position, velocity) := pv in
  let '(x, y, z) := integrate dt position velocity in
  if decide (x > JS.exitX t) then
    if decide (Rabs y > JS.width t / 2) then
      ((JS.entryX t, (u1 - 0.5) * JS.width t * 0.8, (u2 - 0.5) * JS.height t * 0.8),
       (U, 0, 0))
    else if decide (Rabs z > JS.height t / 2) then
      ((JS.entryX t, (u1 - 0.5) * JS.width t * 0.8, (u2 - 0.5) * JS.height t * 0.8),
       (U, 0, 0))
    else ((JS.entryX t, y, z), (U, 0, 0))
  else if decide (Rabs y > JS.width t / 2) then
    ((JS.entryX t, (u1 - 0.5) * JS.width t * 0.8, (u2 - 0.5) * JS.height t * 0.8),
     (U, 0, 0))
  else if decide (Rabs z > JS.height t / 2) then
    ((JS.entryX t, (u1 - 0.5) * JS.width t * 0.8, (u2 - 0.5) * JS.height t * 0.8),
     (U, 0, 0))
  else ((x, y, z), velocity).

(** The obstacle kinds the controls can select. *)
Definition threeKinds : list string := ["sphere"; "cylinder"; "airfoil"]%string.

(** The world used in the examples: one particle, the obstacle at the
    origin, unit flow parameters. *)
Definition oneParticle (position velocity : Vec3) (U : R)
    (objectType : string) (compiled : bool) : JS.World :=
  let '(px, py, pz) := position in
  let '(vx, vy, vz) := velocity in
  {| JS.particles :=
       Some {| JS.positions := [px; py; pz]; JS.velocities := [vx; vy; vz] |};
     JS.simulationObject := Some (0, 0, 0);
     JS.simulationParams :=
       {| JS.freeStreamVelocity := U; JS.particleCount := 1;
          JS.fluidDensity := 1; JS.objectType := objectType |};
     JS.tunnelDimensions := Some JS.defaultTunnel;
     JS.wasmLoaded := compiled;
     JS.wasmModule := compiled;
     JS.updateVelocitiesIsFunction := compiled;
     JS.randomCursor := 0 |}.

(** ** Conditions on the page state *)

(** The three bounds the recycle test enforces. *)
Definition insideTunnel (t : JS.Tunnel) (p : Vec3) : Prop :=
  let '(x, y, z) := p in
  x <= JS.exitX t /\ Rabs y <= JS.width t / 2 /\ Rabs z <= JS.height t / 2.

(** Arrays of [n] particles, all of them inside the stored tunnel. *)
Definition particlesInTunnel (n : nat) (ps : JS.Particles) : Prop :=
  length (JS.positions ps) = (n * 3)%nat
  /\ length (JS.velocities ps) = (n * 3)%nat
  /\ forall i, (i < n)%nat -> insideTunnel JS.defaultTunnel (get3 (JS.positions ps) i).

(** A velocity input with a non-zero value; any other event. *)
Definition speedInputNonzero (e : JS.Event) : Prop :=
  match e with
  | JS.VelocityInput value => value <> 0
  | _ => True
  end.

(** What holds of the page at all times, as long as the free-stream speed
    is never set to zero; [meshPosition] is where the library puts a new
    mesh. *)
Definition pageInvariant (meshPosition : Vec3) (a : JS.App) : Prop :=
  let w := JS.world a in
  In (JS.objectType (JS.simulationParams w)) threeKinds
  /\ JS.freeStreamVelocity (JS.simulationParams w) <> 0
  /\ JS.simulationObject w = Some meshPosition
  /\ default JS.defaultTunnel (JS.tunnelDimensions w) = JS.defaultTunnel
  /\ (JS.isSimulating a = true -> is_Some (JS.particles w))
  /\ forall ps, JS.particles w = Some ps ->
       exists n, particlesInTunnel n ps
                 /\ (JS.isSimulating a = true ->
                     n = JS.particleCount (JS.simulationParams w)).

(** A compiled evaluator that, whenever it returns, returns what
    [fluid_sim.go] computes. *)
Definition compiledIsGo (compiled : JS.CompiledCall) : Prop :=
  forall positions count U rho ox oy oz kind radius res,
    compiled positions count U rho ox oy oz kind radius = Some res ->
    res = Go.updateVelocities positions count U rho ox oy oz kind radius.

(** No particle is upstream of the entry plane or moving upstream. *)
Definition movingDownstream (t : JS.Tunnel) (n : nat) (ps : JS.Particles) : Prop :=
  forall i, (i < n)%nat ->
    JS.entryX t <= getf (JS.positions ps) (i * 3)
    /\ 0 <= getf (JS.velocities ps) (i * 3).

(** * Properties *)

(** ** Arrays *)

Lemma getf_insert_eq (a : list R) (i : nat) (v : R) :
  (i < length a)%nat -> getf (<[i := v]> a) i = v.
Proof.
  intros Hi. unfold getf. now rewrite list_lookup_insert_eq.
Qed.

Lemma getf_insert_ne (a : list R) (i j : nat) (v : R) :
  i <> j -> getf (<[i := v]> a) j = getf a j.
Proof.
  intros Hne. unfold getf. now rewrite list_lookup_insert_ne.
Qed.

Lemma getf_replicate (n i : nat) : getf (replicate n 0) i = 0.
Proof.
  unfold getf. destruct (replicate n 0 !! i) as [v |] eqn:E; [| reflexivity].
  apply lookup_replicate in E. simpl. tauto.
Qed.

(** Writing the three entries of particle [i]. *)
Lemma get3_insert3_eq (a : list R) (i : nat) (x y z : R) :
  (i * 3 + 3 <= length a)%nat ->
  get3 (<[(i * 3 + 2)%nat := z]> (<[(i * 3 + 1)%nat := y]> (<[(i * 3)%nat := x]> a))) i
  = (x, y, z).
Proof.
  intros Hlen. unfold get3. f_equal; [f_equal |].
  - rewrite !getf_insert_ne by lia. apply getf_insert_eq. lia.
  - rewrite getf_insert_ne by lia. apply getf_insert_eq.
    rewrite length_insert. lia.
  - apply getf_insert_eq. rewrite !length_insert. lia.
Qed.

Lemma get3_insert_ne (a : list R) (i j m : nat) (v : R) :
  j <> i -> (i * 3 <= m < i * 3 + 3)%nat -> get3 (<[m := v]> a) j = get3 a j.
Proof.
  intros Hne Hm. unfold get3. rewrite !getf_insert_ne by lia. reflexivity.
Qed.

(** ** Loops that treat one slot per iteration *)

Section SlotLoop.

Variables St A X : Type.
Variable slot : St -> nat -> A.
Variable body : nat -> St -> St.
Variable inv : St -> Prop.
Variable step : nat -> X -> A -> A -> Prop.
Variable N : nat.

Hypothesis body_inv : forall i s, (i < N)%nat -> inv s -> inv (body i s).
Hypothesis body_frame :
  forall i j s, (i < N)%nat -> inv s -> j <> i -> slot (body i s) j = slot s j.
Hypothesis body_step :
  forall i s, (i < N)%nat -> inv s -> exists s0, step i s0 (slot s i) (slot (body i s) i).

Lemma forLoop_slots (n start : nat) (s : St) :
  (start + n <= N)%nat -> inv s ->
  inv (forLoop body start n s)
  /\ (forall j, (j < start \/ start + n <= j)%nat ->
                slot (forLoop body start n s) j = slot s j)
  /\ (forall j, (start <= j < start + n)%nat ->
                exists s0, step j s0 (slot s j) (slot (forLoop body start n s) j)).
Proof.
  revert start s. induction n as [| n IH]; intros start s Hle Hinv; simpl.
  - repeat split; [assumption | lia].
  - destruct (IH (S start) (body start s)) as (Hi & Hf & Hs);
      [lia | apply body_inv; [lia | assumption] |].
    split; [assumption | split].
    + intros j Hj. rewrite Hf by lia. apply body_frame; [lia | assumption | lia].
    + intros j Hj. destruct (Nat.eq_dec j start) as [-> | Hne].
      * rewrite Hf by lia. apply body_step; [lia | assumption].
      * destruct (Hs j) as [s0 Hs0]; [lia |].
        rewrite body_frame in Hs0 by (lia || assumption). eauto.
Qed.

End SlotLoop.

(** ** The evaluators, point by point *)

Lemma go_inside_zero (U rho : R) (kind : Z) (radius x y z : R) :
  sqrt (x * x + y * y + z * z) <= radius ->
  Go.velocityAt U rho kind radius x y z = (0, 0, 0).
Proof.
  intros Hin. unfold Go.velocityAt.
  destruct (decide (sqrt (x * x + y * y + z * z) > radius)) as [Hout |]; [lra | reflexivity].
Qed.

Lemma js_inside_zero (U rho : R) (objectType : string) (x y z : R) :
  sqrt (x * x + y * y + z * z) <= 1 ->
  JS.targetVelocity U rho objectType x y z = (0, 0, 0).
Proof.
  intros Hin. unfold JS.targetVelocity.
  destruct (decide (sqrt (x * x + y * y + z * z) > 1)) as [Hout |]; [lra | reflexivity].
Qed.

Lemma legacy_inside_free_stream (U : R) (objectType : string) (x y z : R) :
  sqrt (x * x + y * y + z * z) <= 1 ->
  Legacy.targetVelocity U objectType x y z = (U, 0, 0).
Proof.
  intros Hin. unfold Legacy.targetVelocity.
  destruct (decide (sqrt (x * x + y * y + z * z) > 1)) as [Hout |]; [lra | reflexivity].
Qed.

(** With the radius the call site passes, the two evaluators are the same
    function of the relative position. *)
Lemma go_js_pointwise (U rho : R) (objectType : string) (x y z : R) :
  In objectType threeKinds ->
  Go.velocityAt U rho (JS.kindCode objectType) 1 x y z
  = JS.targetVelocity U rho objectType x y z.
Proof.
  intros [<- | [<- | [<- | []]]]; reflexivity.
Qed.

(** ** The batch evaluator, slot by slot *)

Lemma go_updateVelocities_slots (positionsJS : list R) (count : nat)
    (U rho ox oy oz : R) (kind : Z) (radius : R) (i : nat) :
  (i < count)%nat ->
  get3 (Go.updateVelocities positionsJS count U rho ox oy oz kind radius) i
  = Go.velocityAt U rho kind radius
      (getf positionsJS (i * 3) - ox)
      (getf positionsJS (i * 3 + 1) - oy)
      (getf positionsJS (i * 3 + 2) - oz).
Proof.
  intros Hi. unfold Go.updateVelocities.
  match goal with |- get3 (forLoop ?b 0 count ?s0) i = _ =>
    destruct (forLoop_slots (list R) Vec3 unit get3 b
                (fun r => length r = (count * 3)%nat)
                (fun j _ _ new =>
                   new = Go.velocityAt U rho kind radius
                           (getf positionsJS (j * 3) - ox)
                           (getf positionsJS (j * 3 + 1) - oy)
                           (getf positionsJS (j * 3 + 2) - oz))
                count) with (n := count) (start := 0%nat) (s := s0)
      as (_ & _ & Hstep)
  end.
  - intros j r Hj Hlen. destruct (Go.velocityAt _ _ _ _ _ _ _) as [[vx vy] vz].
    now rewrite !length_insert.
  - intros j m r Hj Hlen Hne. destruct (Go.velocityAt _ _ _ _ _ _ _) as [[vx vy] vz].
    rewrite !(get3_insert_ne _ j m) by lia. reflexivity.
  - intros j r Hj Hlen. exists tt.
    destruct (Go.velocityAt _ _ _ _ _ _ _) as [[vx vy] vz].
    apply get3_insert3_eq. lia.
  - lia.
  - apply length_replicate.
  - destruct (Hstep i) as [_ H]; [lia | exact H].
Qed.

(** ** The loops of [main.js], slot by slot *)

Lemma js_updateVelocitiesJS_slots (params : JS.SimulationParams)
    (ox oy oz : R) (ps : JS.Particles) :
  length (JS.velocities ps) = (JS.particleCount params * 3)%nat ->
  let ps' := JS.updateVelocitiesJS params (ox, oy, oz) ps in
  JS.positions ps' = JS.positions ps
  /\ length (JS.velocities ps') = length (JS.velocities ps)
  /\ forall i, (i < JS.particleCount params)%nat ->
       get3 (JS.velocities ps') i
       = smooth (get3 (JS.velocities ps) i)
           (JS.targetVelocity (JS.freeStreamVelocity params) (JS.fluidDensity params)
              (JS.objectType params)
              (getf (JS.positions ps) (i * 3) - ox)
              (getf (JS.positions ps) (i * 3 + 1) - oy)
              (getf (JS.positions ps) (i * 3 + 2) - oz)).
Proof.
  intros Hlen. unfold JS.updateVelocitiesJS. cbn [JS.positions JS.velocities].
  set (count := JS.particleCount params) in *.
  match goal with |- _ /\ length (forLoop ?b 0 count ?s0) = _ /\ _ =>
    destruct (forLoop_slots (list R) Vec3 unit get3 b
                (fun v => length v = (count * 3)%nat)
                (fun j _ old new =>
                   new = smooth old
                           (JS.targetVelocity (JS.freeStreamVelocity params)
                              (JS.fluidDensity params) (JS.objectType params)
                              (getf (JS.positions ps) (j * 3) - ox)
                              (getf (JS.positions ps) (j * 3 + 1) - oy)
                              (getf (JS.positions ps) (j * 3 + 2) - oz)))
                count) with (n := count) (start := 0%nat) (s := s0)
      as (Hinv & _ & Hstep)
  end.
  - intros j v Hj Hv. destruct (JS.targetVelocity _ _ _ _ _ _) as [[vx vy] vz].
    now rewrite !length_insert.
  - intros j m v Hj Hv Hne. destruct (JS.targetVelocity _ _ _ _ _ _) as [[vx vy] vz].
    rewrite !(get3_insert_ne _ j m) by lia. reflexivity.
  - intros j v Hj Hv. exists tt.
    destruct (JS.targetVelocity _ _ _ _ _ _) as [[vx vy] vz].
    rewrite get3_insert3_eq by lia. unfold get3, smooth.
    rewrite !getf_insert_ne by lia. reflexivity.
  - lia.
  - exact Hlen.
  - split; [reflexivity | split; [congruence |]].
    intros i Hi. destruct (Hstep i) as [_ H]; [lia | exact H].
Qed.

Lemma js_copyVelocities_slots (count : nat) (velocityResults : list R)
    (ps : JS.Particles) :
  length (JS.velocities ps) = (count * 3)%nat ->
  let ps' := JS.copyVelocities count velocityResults ps in
  JS.positions ps' = JS.positions ps
  /\ length (JS.velocities ps') = length (JS.velocities ps)
  /\ forall i, (i < count)%nat ->
       get3 (JS.velocities ps') i = get3 velocityResults i.
Proof.
  intros Hlen. unfold JS.copyVelocities. cbn [JS.positions JS.velocities].
  match goal with |- _ /\ length (forLoop ?b 0 count ?s0) = _ /\ _ =>
    destruct (forLoop_slots (list R) Vec3 unit get3 b
                (fun v => length v = (count * 3)%nat)
                (fun j _ _ new => new = get3 velocityResults j)
                count) with (n := count) (start := 0%nat) (s := s0)
      as (Hinv & _ & Hstep)
  end.
  - intros j v Hj Hv. now rewrite !length_insert.
  - intros j m v Hj Hv Hne. rewrite !(get3_insert_ne _ j m) by lia. reflexivity.
  - intros j v Hj Hv. exists tt. rewrite get3_insert3_eq by lia. reflexivity.
  - lia.
  - exact Hlen.
  - split; [reflexivity | split; [congruence |]].
    intros i Hi. destruct (Hstep i) as [_ H]; [lia | exact H].
Qed.

Lemma advectBody_spec (random : nat -> R) (t : JS.Tunnel) (U dt : R)
    (i : nat) (pos vel : list R) (k : nat) :
  (i * 3 + 3 <= length pos)%nat ->
  (i * 3 + 3 <= length vel)%nat ->
  exists pos' vel' k',
    JS.advectBody random t U dt i (pos, vel, k) = (pos', vel', k')
    /\ length pos' = length pos
    /\ length vel' = length vel
    /\ (get3 pos' i, get3 vel' i)
       = advectParticle t U dt (random k) (random (S k)) (get3 pos i, get3 vel i)
    /\ forall j, j <> i -> get3 pos' j = get3 pos j /\ get3 vel' j = get3 vel j.
Proof.
  intros Hp Hv. unfold JS.advectBody.
  set (idx := (i * 3)%nat).
  set (p1 := <[idx := getf pos idx + getf vel idx * dt]> pos).
  set (p2 := <[(idx + 1)%nat := getf p1 (idx + 1) + getf vel (idx + 1) * dt]> p1).
  set (p3 := <[(idx + 2)%nat := getf p2 (idx + 2) + getf vel (idx + 2) * dt]> p2).
  assert (Hx : getf p3 idx = getf pos idx + getf vel idx * dt).
  { subst p3 p2 p1. rewrite !getf_insert_ne by lia. apply getf_insert_eq. lia. }
  assert (Hy : getf p3 (idx + 1) = getf pos (idx + 1) + getf vel (idx + 1) * dt).
  { subst p3 p2. rewrite getf_insert_ne by lia.
    rewrite getf_insert_eq by (subst p1; rewrite length_insert; lia).
    subst p1. now rewrite getf_insert_ne by lia. }
  assert (Hz : getf p3 (idx + 2) = getf pos (idx + 2) + getf vel (idx + 2) * dt).
  { subst p3. rewrite getf_insert_eq by (subst p2 p1; rewrite !length_insert; lia).
    subst p2 p1. now rewrite !getf_insert_ne by lia. }
  assert (Hl3 : length p3 = length pos).
  { subst p3 p2 p1. now rewrite !length_insert. }
  assert (Hf3 : forall j, j <> i -> get3 p3 j = get3 pos j).
  { intros j Hj. subst p3 p2 p1. rewrite !(get3_insert_ne _ i j) by lia. reflexivity. }
  rewrite !getf_insert_ne by lia. rewrite Hx, Hy, Hz.
  unfold advectParticle, integrate, get3. fold idx.
  set (x := getf pos idx + getf vel idx * dt) in *.
  set (y := getf pos (idx + 1) + getf vel (idx + 1) * dt) in *.
  set (z := getf pos (idx + 2) + getf vel (idx + 2) * dt) in *.
  assert (Hreseed :
    forall u1 u2,
      let q := <[(idx + 2)%nat := u2]> (<[(idx + 1)%nat := u1]> (<[idx := JS.entryX t]> p3)) in
      length q = length pos
      /\ (getf q idx, getf q (idx + 1), getf q (idx + 2)) = (JS.entryX t, u1, u2)
      /\ forall j, j <> i -> get3 q j = get3 pos j).
  { intros u1 u2 q. subst q. split; [now rewrite !length_insert |]. split.
    - apply (get3_insert3_eq p3 i). lia.
    - intros j Hj. rewrite !(get3_insert_ne _ i j) by lia. now apply Hf3. }
  assert (Hkeep :
    let q := <[idx := JS.entryX t]> p3 in
    length q = length pos
    /\ (getf q idx, getf q (idx + 1), getf q (idx + 2)) = (JS.entryX t, y, z)
    /\ forall j, j <> i -> get3 q j = get3 pos j).
  { intros q. subst q. split; [now rewrite !length_insert |]. split.
    - rewrite getf_insert_eq by lia. rewrite !getf_insert_ne by lia. now rewrite Hy, Hz.
    - intros j Hj. rewrite (get3_insert_ne _ i j) by lia. now apply Hf3. }
  assert (Hvel :
    let w := <[(idx + 2)%nat := 0]> (<[(idx + 1)%nat := 0]> (<[idx := U]> vel)) in
    length w = length vel
    /\ (getf w idx, getf w (idx + 1), getf w (idx + 2)) = (U, 0, 0)
    /\ forall j, j <> i -> get3 w j = get3 vel j).
  { intros w. subst w. split; [now rewrite !length_insert |]. split.
    - apply (get3_insert3_eq vel i). lia.
    - intros j Hj. rewrite !(get3_insert_ne _ i j) by lia. reflexivity. }
  destruct Hvel as (Hvl & Hve & Hvf). destruct Hkeep as (Hkl & Hke & Hkf).
  destruct (decide (x > JS.exitX t)) as [Ex | Ex];
    destruct (decide (Rabs y > JS.width t / 2)) as [Ey | Ey];
    destruct (decide (Rabs z > JS.height t / 2)) as [Ez | Ez];
    rewrite ?(bool_decide_eq_true_2 _ Ex), ?(bool_decide_eq_false_2 _ Ex),
            ?(bool_decide_eq_true_2 _ Ey), ?(bool_decide_eq_false_2 _ Ey),
            ?(bool_decide_eq_true_2 _ Ez), ?(bool_decide_eq_false_2 _ Ez);
    cbn [orb];
    try (destruct (Hreseed ((random k - 0.5) * JS.width t * 0.8)
                    ((random (S k) - 0.5) * JS.height t * 0.8)) as (Hrl & Hre & Hrf);
         do 3 eexists; split; [reflexivity |];
         split; [exact Hrl | split; [exact Hvl | split]];
         [rewrite Hre, Hve; reflexivity | intros j Hj; split; [now apply Hrf | now apply Hvf]]).
  - do 3 eexists; split; [reflexivity |].
    split; [exact Hkl | split; [exact Hvl | split]].
    + rewrite Hke, Hve. reflexivity.
    + intros j Hj; split; [now apply Hkf | now apply Hvf].
  - do 3 eexists; split; [reflexivity |].
    split; [exact Hl3 | split; [reflexivity | split]].
    + rewrite Hx, Hy, Hz. reflexivity.
    + intros j Hj; split; [now apply Hf3 | reflexivity].
Qed.

Lemma advect_slots (random : nat -> R) (t : JS.Tunnel)
    (params : JS.SimulationParams) (ps : JS.Particles) (k : nat) :
  length (JS.positions ps) = (JS.particleCount params * 3)%nat ->
  length (JS.velocities ps) = (JS.particleCount params * 3)%nat ->
  let ps' := fst (JS.advect random t params ps k) in
  length (JS.positions ps') = length (JS.positions ps)
  /\ length (JS.velocities ps') = length (JS.velocities ps)
  /\ forall i, (i < JS.particleCount params)%nat ->
       exists kj,
         (get3 (JS.positions ps') i, get3 (JS.velocities ps') i)
         = advectParticle t (JS.freeStreamVelocity params) 0.01
             (random kj) (random (S kj))
             (get3 (JS.positions ps) i, get3 (JS.velocities ps) i).
Proof.
  intros Hp Hv. unfold JS.advect.
  set (count := JS.particleCount params) in *.
  set (U := JS.freeStreamVelocity params).
  destruct (forLoop_slots (list R * list R * nat) (Vec3 * Vec3) nat
              (fun st j => (get3 (fst (fst st)) j, get3 (snd (fst st)) j))
              (JS.advectBody random t U 0.01)
              (fun st => length (fst (fst st)) = (count * 3)%nat
                         /\ length (snd (fst st)) = (count * 3)%nat)
              (fun j kj old new =>
                 new = advectParticle t U 0.01 (random kj) (random (S kj)) old)
              count) with (n := count) (start := 0%nat)
                          (s := (JS.positions ps, JS.velocities ps, k))
    as (Hinv & _ & Hstep).
  - intros j [[p v] c] Hj [Hlp Hlv]; cbn [fst snd] in *.
    destruct (advectBody_spec random t U 0.01 j p v c)
      as (p' & v' & c' & -> & Hlp' & Hlv' & _); [lia | lia |].
    cbn [fst snd]. split; congruence.
  - intros j m [[p v] c] Hj [Hlp Hlv] Hne; cbn [fst snd] in *.
    destruct (advectBody_spec random t U 0.01 j p v c)
      as (p' & v' & c' & -> & _ & _ & _ & Hfr); [lia | lia |].
    cbn [fst snd]. destruct (Hfr m Hne) as [-> ->]. reflexivity.
  - intros j [[p v] c] Hj [Hlp Hlv]; cbn [fst snd] in *.
    destruct (advectBody_spec random t U 0.01 j p v c)
      as (p' & v' & c' & -> & _ & _ & Hst & _); [lia | lia |].
    cbn [fst snd]. exists c. exact Hst.
  - lia.
  - cbn [fst snd]. split; assumption.
  - destruct (forLoop _ _ _ _) as [[p' v'] k'] eqn:E.
    cbn [fst snd JS.positions JS.velocities] in *.
    destruct Hinv as [Hlp' Hlv'].
    split; [congruence | split; [congruence |]].
    intros i Hi. destruct (Hstep i) as [kj H]; [lia |]. exists kj. exact H.
Qed.

(** Both branches of the velocity phase keep the array shapes. *)
Lemma velocityPhase_shape (compiled : JS.CompiledCall)
    (params : JS.SimulationParams) (obj : Vec3) (selected : bool)
    (ps : JS.Particles) :
  length (JS.velocities ps) = (JS.particleCount params * 3)%nat ->
  let ps' := JS.velocityPhase compiled params obj selected ps in
  JS.positions ps' = JS.positions ps
  /\ length (JS.velocities ps') = length (JS.velocities ps).
Proof.
  intros Hv. destruct obj as [[ox oy] oz]. unfold JS.velocityPhase.
  destruct selected.
  - destruct (compiled _ _ _ _ _ _ _ _ _) as [res |].
    + destruct (js_copyVelocities_slots (JS.particleCount params) res ps Hv)
        as (H1 & H2 & _). split; assumption.
    + destruct (js_updateVelocitiesJS_slots params ox oy oz ps Hv)
        as (H1 & H2 & _). split; assumption.
  - destruct (js_updateVelocitiesJS_slots params ox oy oz ps Hv)
      as (H1 & H2 & _). split; assumption.
Qed.

(** ** Concrete scenarios *)

Lemma sqrt_sq_nonneg (a b : R) : 0 <= b -> a = b * b -> sqrt a = b.
Proof. intros Hb ->. now apply sqrt_square. Qed.

(** Settles a radial test [decide (a > b)] whose outcome [lra] can see. *)
Ltac settle_gate :=
  match goal with
  | |- context [decide (?a > ?b)] =>
      destruct (decide (a > b)); [try lra | try lra]
  end.

Ltac vec3_lra := f_equal; [f_equal |]; lra.

Lemma go_sphere_at_2 : Go.velocityAt 1 1 Go.SPHERE 1 2 0 0 = (0.875, 0, 0).
Proof.
  unfold Go.velocityAt. rewrite (sqrt_sq_nonneg _ 2) by lra.
  settle_gate. simpl. vec3_lra.
Qed.

Lemma js_sphere_at_2 : JS.targetVelocity 1 1 "sphere" 2 0 0 = (0.875, 0, 0).
Proof.
  rewrite <- go_sphere_at_2. symmetry.
  apply (go_js_pointwise 1 1 "sphere"). simpl. tauto.
Qed.

(** C5. Sphere of radius 1 in a unit stream of unit density, point at
    relative position (2,0,0): the radial distance is 2 (outside), the
    factor is (1/2)^3 = 0.125, and both evaluators return exactly
    (0.875, 0, 0). *)
Theorem sphere_scenario :
  sqrt (2 * 2 + 0 * 0 + 0 * 0) = 2
  /\ 2 > 1
  /\ 1 ^ 3 / 2 ^ 3 = 0.125
  /\ Go.velocityAt 1 1 Go.SPHERE 1 2 0 0 = (0.875, 0, 0)
  /\ JS.targetVelocity 1 1 "sphere" 2 0 0 = (0.875, 0, 0).
Proof.
  split; [apply sqrt_sq_nonneg; lra |].
  split; [lra |].
  split; [simpl; lra |].
  split; [apply go_sphere_at_2 | apply js_sphere_at_2].
Qed.

Lemma go_cylinder_at_2 : Go.velocityAt 1 1 Go.CYLINDER 1 0 2 0 = (1.25, 0, 0).
Proof.
  unfold Go.velocityAt, Go.cylinderPressure.
  rewrite (sqrt_sq_nonneg (0 * 0 + 2 * 2 + 0 * 0) 2) by lra.
  rewrite (sqrt_sq_nonneg (0 * 0 + 2 * 2) 2) by lra.
  settle_gate. simpl. vec3_lra.
Qed.

(** C6. Cylinder of radius 1 in a unit stream of unit density, point at
    relative position (0,2,0): rxy = 2, factor = (1/2)^2 = 0.25, the plane
    velocity is (1.25, 0), the Bernoulli pressure is -0.28125, the z term
    vanishes because z = 0, and both evaluators return exactly
    (1.25, 0, 0). *)
Theorem cylinder_scenario :
  sqrt (0 * 0 + 2 * 2) = 2
  /\ (1 / 2) ^ 2 = 0.25
  /\ 1 * (1 - 0.25 * (2 * 0 * 0 / (2 * 2) - 1)) = 1.25
  /\ 1 * (- 0.25 * 2 * 0 * 2 / (2 * 2)) = 0
  /\ Go.cylinderPressure 1 1 1.25 0 = -0.28125
  /\ 0 * -0.28125 * 0.01 = 0
  /\ Go.velocityAt 1 1 Go.CYLINDER 1 0 2 0 = (1.25, 0, 0)
  /\ JS.targetVelocity 1 1 "cylinder" 0 2 0 = (1.25, 0, 0).
Proof.
  split; [apply sqrt_sq_nonneg; lra |].
  split; [simpl; lra |].
  split; [lra |].
  split; [lra |].
  split; [unfold Go.cylinderPressure; lra |].
  split; [lra |].
  split; [apply go_cylinder_at_2 |].
  rewrite <- go_cylinder_at_2. symmetry.
  apply (go_js_pointwise 1 1 "cylinder"). simpl. tauto.
Qed.

(** ** Inside the obstacle *)

(** C2. At the obstacle centre (r = 0 <= radius = 1) the scalar evaluator
    of the copy of [main.js] without the wind tunnel returns the
    free-stream vector (1,0,0) and not (0,0,0); the compiled evaluator and
    the scalar evaluator of the wind-tunnel [main.js] return (0,0,0)
    there. *)
Theorem legacy_centre_not_zero :
  sqrt (0 * 0 + 0 * 0 + 0 * 0) <= 1
  /\ Legacy.targetVelocity 1 "sphere" 0 0 0 = (1, 0, 0)
  /\ Legacy.targetVelocity 1 "sphere" 0 0 0 <> (0, 0, 0)
  /\ Go.velocityAt 1 1 Go.SPHERE 1 0 0 0 = (0, 0, 0)
  /\ JS.targetVelocity 1 1 "sphere" 0 0 0 = (0, 0, 0).
Proof.
  assert (H : sqrt (0 * 0 + 0 * 0 + 0 * 0) <= 1).
  { rewrite (sqrt_sq_nonneg _ 0) by lra. lra. }
  split; [exact H |].
  rewrite (legacy_inside_free_stream 1 "sphere" 0 0 0 H).
  split; [reflexivity |].
  split; [intros E; injection E; lra |].
  split; [now apply go_inside_zero | now apply js_inside_zero].
Qed.

(** ** Agreement of the two evaluators *)

Lemma relClose_refl (eps a : R) : 0 <= eps -> relClose eps a a.
Proof.
  intros Heps. unfold relClose.
  replace (a - a) with 0 by lra. rewrite Rabs_R0.
  apply Rmult_le_pos; [assumption |].
  apply Rle_trans with (Rabs a); [apply Rabs_pos | apply Rmax_l].
Qed.

Lemma relClose3_refl (eps : R) (v : Vec3) : 0 <= eps -> relClose3 eps v v.
Proof.
  intros Heps. destruct v as [[vx vy] vz]. simpl.
  repeat split; now apply relClose_refl.
Qed.

(** C1, as the code has it. For radius 1 (the scalar evaluator's constant,
    and the value the call site passes to the compiled one), each of the
    three obstacle kinds, and any positions, obstacle position, free-stream
    speed and density, the velocity the batch evaluator writes for
    particle [i] is the target velocity the scalar evaluator computes for
    it: the two are equal in exact arithmetic, hence within 1e-5 relative
    error. *)
Theorem evaluators_agree_unit_radius
    (positions : list R) (count : nat) (U rho ox oy oz : R)
    (objectType : string) (i : nat) :
  In objectType threeKinds ->
  length positions = (count * 3)%nat ->
  (i < count)%nat ->
  let batch :=
    get3 (Go.updateVelocities positions count U rho ox oy oz
            (JS.kindCode objectType) 1) i in
  let scalar :=
    JS.targetVelocity U rho objectType
      (getf positions (i * 3) - ox)
      (getf positions (i * 3 + 1) - oy)
      (getf positions (i * 3 + 2) - oz) in
  batch = scalar /\ relClose3 1e-5 batch scalar.
Proof.
  intros Hkind Hlen Hi batch scalar.
  assert (E : batch = scalar).
  { subst batch scalar. rewrite go_updateVelocities_slots by assumption.
    now apply go_js_pointwise. }
  split; [exact E |]. rewrite E. apply relClose3_refl. lra.
Qed.

Lemma evaluators_agree_unit_radius_witness :
  let batch :=
    get3 (Go.updateVelocities [2; 0; 0] 1 1 1 0 0 0 (JS.kindCode "sphere") 1) 0 in
  let scalar :=
    JS.targetVelocity 1 1 "sphere" (getf [2; 0; 0] 0 - 0)
      (getf [2; 0; 0] 1 - 0) (getf [2; 0; 0] 2 - 0) in
  batch = scalar /\ relClose3 1e-5 batch scalar.
Proof.
  apply (evaluators_agree_unit_radius [2; 0; 0] 1 1 1 0 0 0 "sphere" 0).
  - simpl. tauto.
  - reflexivity.
  - lia.
Defined.

(** C1 as stated fails: with radius 2 the batch evaluator zeroes the
    velocity at relative position (2,0,0), while the scalar evaluator,
    whose radius is the constant 1, returns (0.875,0,0). *)
Lemma evaluators_differ_radius_2 :
  ~ relClose3 1e-5
      (get3 (Go.updateVelocities [2; 0; 0] 1 1 1 0 0 0 (JS.kindCode "sphere") 2) 0)
      (JS.targetVelocity 1 1 "sphere" (getf [2; 0; 0] 0 - 0)
         (getf [2; 0; 0] 1 - 0) (getf [2; 0; 0] 2 - 0)).
Proof.
  rewrite go_updateVelocities_slots by lia.
  unfold getf; simpl.
  replace (2 - 0) with 2 by lra. replace (0 - 0) with 0 by lra.
  rewrite js_sphere_at_2.
  rewrite go_inside_zero by (rewrite (sqrt_sq_nonneg _ 2) by lra; lra).
  simpl. intros (H & _). unfold relClose in H.
  assert (E : Rabs (0 - 0.875) = 0.875) by (rewrite Rabs_left by lra; lra).
  rewrite E, Rabs_R0, (Rabs_pos_eq 0.875) in H by lra.
  rewrite Rmax_right in H by lra. lra.
Qed.

(** ** Pressure *)

(** C7, as the code has it. For a fixed free-stream speed and a fixed
    positive density, the pressure computed by [calculatePressure] is
    strictly decreasing in the velocity magnitude. *)
Theorem pressure_strictly_decreasing (U rho : R) (v1 v2 : Vec3) :
  0 < rho ->
  norm3 v1 < norm3 v2 ->
  Go.pressureAt U rho v1 > Go.pressureAt U rho v2.
Proof.
  intros Hrho Hlt.
  destruct v1 as [[x1 y1] z1], v2 as [[x2 y2] z2].
  unfold norm3 in Hlt. apply sqrt_lt_0_alt in Hlt.
  unfold Go.pressureAt. nra.
Qed.

Lemma pressure_strictly_decreasing_witness :
  Go.pressureAt 1 1 (0, 0, 0) > Go.pressureAt 1 1 (1, 0, 0).
Proof.
  apply (pressure_strictly_decreasing 1 1 (0, 0, 0) (1, 0, 0)).
  - lra.
  - unfold norm3. rewrite (sqrt_sq_nonneg _ 0), (sqrt_sq_nonneg _ 1) by lra. lra.
Defined.

(** C7 as stated fails when the density is zero: the pressure is then the
    same for every velocity. *)
Lemma pressure_flat_at_zero_density :
  norm3 (0, 0, 0) < norm3 (1, 0, 0)
  /\ ~ Go.pressureAt 1 0 (0, 0, 0) > Go.pressureAt 1 0 (1, 0, 0).
Proof.
  split.
  - unfold norm3. rewrite (sqrt_sq_nonneg _ 0), (sqrt_sq_nonneg _ 1) by lra. lra.
  - unfold Go.pressureAt. lra.
Qed.

(** The pressure array holds [pressureAt] of each velocity triple. *)
Lemma go_calculatePressure_slots (velocitiesJS : list R) (count : nat)
    (U rho : R) (i : nat) :
  (i < count)%nat ->
  getf (Go.calculatePressure velocitiesJS count U rho) i
  = Go.pressureAt U rho (get3 velocitiesJS i).
Proof.
  intros Hi. unfold Go.calculatePressure.
  match goal with |- getf (forLoop ?b 0 count ?s0) i = _ =>
    destruct (forLoop_slots (list R) R unit getf b
                (fun r => length r = count)
                (fun j _ _ new => new = Go.pressureAt U rho (get3 velocitiesJS j))
                count) with (n := count) (start := 0%nat) (s := s0)
      as (_ & _ & Hstep)
  end.
  - intros j r Hj Hlen. now rewrite length_insert.
  - intros j m r Hj Hlen Hne. now apply getf_insert_ne.
  - intros j r Hj Hlen. exists tt. apply getf_insert_eq. lia.
  - lia.
  - apply length_replicate.
  - destruct (Hstep i) as [_ H]; [lia | exact H].
Qed.

(** ** Outside the obstacle the stream is perturbed *)

Lemma sqrt_gt_pos (s radius : R) :
  0 <= s -> 0 < radius -> sqrt s > radius ->
  0 < sqrt s /\ sqrt s * sqrt s = s.
Proof.
  intros Hs Hr Hgt. split; [lra | now apply sqrt_sqrt].
Qed.

Lemma sphere_perturbed (U radius x y z : R) :
  0 < radius -> U <> 0 ->
  sqrt (x * x + y * y + z * z) > radius ->
  let r := sqrt (x * x + y * y + z * z) in
  let factor := radius ^ 3 / r ^ 3 in
  (U * (1 - factor * (3 * x * x / (2 * r * r) - 0.5)),
   U * (- factor * 3 * x * y / (2 * r * r)),
   U * (- factor * 3 * x * z / (2 * r * r))) <> (U, 0, 0).
Proof.
  intros Hrad HU Hout r factor E.
  destruct (sqrt_gt_pos (x * x + y * y + z * z) radius) as [Hr Hrr];
    [nra | assumption | assumption |].
  fold r in Hr, Hrr.
  assert (Hf : 0 < factor).
  { unfold factor. apply Rdiv_lt_0_compat; apply pow_lt; lra. }
  assert (Hb : 0 < / (2 * r * r)) by (apply Rinv_0_lt_compat; nra).
  assert (Hbr : / (2 * r * r) * (2 * r * r) = 1) by (apply Rinv_l; nra).
  set (b := / (2 * r * r)) in *.
  injection E as Ex Ey Ez.
  unfold Rdiv in Ex, Ey, Ez. fold b in Ex, Ey, Ez.
  assert (Ex' : U * (factor * (3 * x * x * b - 0.5)) = 0) by lra.
  apply Rmult_integral in Ex'. destruct Ex' as [? | Ex']; [contradiction |].
  apply Rmult_integral in Ex'. destruct Ex' as [? | Ex']; [lra |].
  assert (Hx : 3 * x * x = r * r) by nra.
  assert (Ey' : U * (factor * (b * (x * y))) = 0) by lra.
  assert (Ez' : U * (factor * (b * (x * z))) = 0) by lra.
  repeat (apply Rmult_integral in Ey'; destruct Ey' as [? | Ey']; [lra |]).
  repeat (apply Rmult_integral in Ez'; destruct Ez' as [? | Ez']; [lra |]).
  assert (x * x * (y * y) = 0) by nra.
  assert (x * x * (z * z) = 0) by nra.
  assert (x * x * (x * x) = 0) by nra.
  assert (x * x = 0) by nra.
  nra.
Qed.

Lemma cylinder_perturbed (U radius x y vz : R) :
  0 < radius -> U <> 0 ->
  sqrt (x * x + y * y) > radius ->
  let rxy := sqrt (x * x + y * y) in
  let factor := (radius / rxy) ^ 2 in
  (U * (1 - factor * (2 * x * x / (rxy * rxy) - 1)),
   U * (- factor * 2 * x * y / (rxy * rxy)),
   vz) <> (U, 0, 0).
Proof.
  intros Hrad HU Hout rxy factor E.
  destruct (sqrt_gt_pos (x * x + y * y) radius) as [Hr Hrr];
    [nra | assumption | assumption |].
  fold rxy in Hr, Hrr.
  assert (Hq : 0 < radius / rxy) by (apply Rdiv_lt_0_compat; lra).
  assert (Hf : 0 < factor) by (unfold factor; apply pow_lt; assumption).
  assert (Hb : 0 < / (rxy * rxy)) by (apply Rinv_0_lt_compat; nra).
  assert (Hbr : / (rxy * rxy) * (rxy * rxy) = 1) by (apply Rinv_l; nra).
  set (b := / (rxy * rxy)) in *.
  injection E as Ex Ey _.
  unfold Rdiv in Ex, Ey. fold b in Ex, Ey.
  assert (Ex' : U * (factor * (2 * x * x * b - 1)) = 0) by lra.
  apply Rmult_integral in Ex'. destruct Ex' as [? | Ex']; [contradiction |].
  apply Rmult_integral in Ex'. destruct Ex' as [? | Ex']; [lra |].
  assert (Hx : 2 * x * x = rxy * rxy) by nra.
  assert (Ey' : U * (factor * (b * (x * y))) = 0) by lra.
  repeat (apply Rmult_integral in Ey'; destruct Ey' as [? | Ey']; [lra |]).
  assert (x * x * (y * y) = 0) by nra.
  assert (x * x * (x * x) = 0) by nra.
  assert (x * x = 0) by nra.
  nra.
Qed.

Lemma airfoil_perturbed (U radius rxy angle vz : R) :
  0 < radius -> U <> 0 -> rxy > radius ->
  let circulation := U * 4 * PI * radius * sin angle in
  let factor := (radius / rxy) ^ 2 in
  (U * (1 - factor * cos (2 * angle)),
   U * (- factor * sin (2 * angle)) + circulation / (2 * PI * rxy),
   vz) <> (U, 0, 0).
Proof.
  intros Hrad HU Hout circulation factor E.
  pose proof PI_RGT_0 as Hpi.
  set (q := radius / rxy) in *.
  assert (Hq : 0 < q) by (apply Rdiv_lt_0_compat; lra).
  assert (Hq1 : q < 1).
  { unfold q. apply Rmult_lt_reg_r with rxy; [lra |].
    unfold Rdiv. rewrite Rmult_assoc, Rinv_l by lra. lra. }
  assert (Hfac : factor = q * q) by (unfold factor; simpl; ring).
  assert (Hcirc : circulation / (2 * PI * rxy) = 2 * U * q * sin angle).
  { unfold circulation, q. field. split; lra. }
  injection E as Ex Ey _.
  rewrite Hcirc, Hfac in Ey. rewrite Hfac in Ex.
  rewrite cos_2a_sin in Ex. rewrite sin_2a in Ey.
  pose proof (sin2_cos2 angle) as Hsc. unfold Rsqr in Hsc.
  set (s := sin angle) in *. set (c := cos angle) in *.
  assert (Ex' : U * (q * q * (1 - 2 * s * s)) = 0) by lra.
  apply Rmult_integral in Ex'. destruct Ex' as [? | Ex']; [contradiction |].
  apply Rmult_integral in Ex'. destruct Ex' as [Ex' | Ex']; [nra |].
  assert (Ey' : U * (q * (s * (1 - q * c))) = 0) by lra.
  apply Rmult_integral in Ey'. destruct Ey' as [? | Ey']; [contradiction |].
  apply Rmult_integral in Ey'. destruct Ey' as [? | Ey']; [lra |].
  apply Rmult_integral in Ey'. destruct Ey' as [Ey' | Ey']; [nra |].
  assert (Hc : c * c = 1 / 2) by lra.
  assert (Hqc : q * c * (q * c) = 1) by nra.
  assert (Hqq : q * q = 2) by nra.
  nra.
Qed.

(** C8. For each of the three obstacle kinds, a positive radius and a
    non-zero free-stream speed, the compiled evaluator never returns the
    free-stream vector (U,0,0) at a point whose radial distance exceeds
    radius*(1+eps): outside the obstacle the perturbation term has no
    zero. *)
Theorem outside_velocity_is_perturbed
    (U rho : R) (kind : Z) (radius eps x y z : R) :
  In kind [Go.SPHERE; Go.CYLINDER; Go.AIRFOIL] ->
  0 < radius -> 0 <= eps -> U <> 0 ->
  sqrt (x * x + y * y + z * z) > radius * (1 + eps) ->
  Go.velocityAt U rho kind radius x y z <> (U, 0, 0).
Proof.
  intros Hkind Hrad Heps HU Hout.
  assert (Hout' : sqrt (x * x + y * y + z * z) > radius) by nra.
  assert (Hzero : (0, 0, 0) <> (U, 0, 0)) by (intros E; injection E; auto).
  unfold Go.velocityAt.
  destruct (decide (sqrt (x * x + y * y + z * z) > radius)) as [_ | C]; [| contradiction].
  destruct Hkind as [<- | [<- | [<- | []]]]; simpl Z.eqb; cbv iota.
  - now apply sphere_perturbed.
  - destruct (decide (sqrt (x * x + y * y) > radius)) as [Hxy | _]; [| exact Hzero].
    now apply cylinder_perturbed.
  - destruct (decide (sqrt (x * x + y * y) > radius)) as [Hxy | _]; [| exact Hzero].
    now apply airfoil_perturbed.
Qed.

Lemma outside_velocity_is_perturbed_witness :
  Go.velocityAt 1 1 Go.SPHERE 1 2 0 0 <> (1, 0, 0).
Proof.
  apply (outside_velocity_is_perturbed 1 1 Go.SPHERE 1 0 2 0 0).
  - simpl. tauto.
  - lra.
  - lra.
  - lra.
  - rewrite (sqrt_sq_nonneg _ 2) by lra. lra.
Defined.

(** ** Recycling *)

Lemma reseed_within_80_percent (u extent : R) :
  0 <= u < 1 -> Rabs ((u - 0.5) * extent * 0.8) <= 0.8 * (Rabs extent / 2).
Proof.
  intros Hu. rewrite !Rabs_mult, (Rabs_pos_eq 0.8) by lra.
  assert (Hc : Rabs (u - 0.5) <= 0.5) by (apply Rabs_le; lra).
  pose proof (Rabs_pos extent). nra.
Qed.

Lemma advectParticle_recycled (t : JS.Tunnel) (U dt u1 u2 : R)
    (p v : Vec3) (x y z : R) :
  integrate dt p v = (x, y, z) ->
  exitsTunnel t (x, y, z) ->
  exists y' z',
    advectParticle t U dt u1 u2 (p, v) = ((JS.entryX t, y', z'), (U, 0, 0))
    /\ (lateralExit t (x, y, z) ->
        y' = (u1 - 0.5) * JS.width t * 0.8 /\ z' = (u2 - 0.5) * JS.height t * 0.8)
    /\ (~ lateralExit t (x, y, z) -> y' = y /\ z' = z).
Proof.
  intros Hint Hexit. unfold advectParticle. rewrite Hint.
  unfold exitsTunnel, lateralExit in *.
  destruct (decide (x > JS.exitX t)) as [Ex | Ex];
    destruct (decide (Rabs y > JS.width t / 2)) as [Ey | Ey];
    destruct (decide (Rabs z > JS.height t / 2)) as [Ez | Ez];
    try (do 2 eexists; split; [reflexivity |]; split; [tauto | tauto]).
  tauto.
Qed.

Lemma advectParticle_kept (t : JS.Tunnel) (U dt u1 u2 : R)
    (p v : Vec3) (x y z : R) :
  integrate dt p v = (x, y, z) ->
  ~ exitsTunnel t (x, y, z) ->
  advectParticle t U dt u1 u2 (p, v) = ((x, y, z), v).
Proof.
  intros Hint Hexit. unfold advectParticle. rewrite Hint.
  unfold exitsTunnel, lateralExit in *.
  destruct (decide (x > JS.exitX t)); [tauto |].
  destruct (decide (Rabs y > JS.width t / 2)); [tauto |].
  destruct (decide (Rabs z > JS.height t / 2)); [tauto | reflexivity].
Qed.

(** C4. A particle whose integrated position leaves the tunnel (x beyond
    the exit plane, or |y| beyond the half-width, or |z| beyond the
    half-height) ends the pass with x = entryX exactly and velocity
    (U,0,0) exactly; after a lateral exit its y and z are fresh random
    points, (random - 0.5) * extent * 0.8, hence within 80% of the
    cross-section; after a purely axial exit its y and z are the
    integrated ones, unchanged. *)
Theorem recycled_particle_is_reset
    (random : nat -> R) (t : JS.Tunnel) (params : JS.SimulationParams)
    (ps : JS.Particles) (k i : nat) (x y z : R) :
  (forall n, 0 <= random n < 1) ->
  length (JS.positions ps) = (JS.particleCount params * 3)%nat ->
  length (JS.velocities ps) = (JS.particleCount params * 3)%nat ->
  (i < JS.particleCount params)%nat ->
  integrate 0.01 (get3 (JS.positions ps) i) (get3 (JS.velocities ps) i) = (x, y, z) ->
  exitsTunnel t (x, y, z) ->
  let ps' := fst (JS.advect random t params ps k) in
  let y' := getf (JS.positions ps') (i * 3 + 1) in
  let z' := getf (JS.positions ps') (i * 3 + 2) in
  getf (JS.positions ps') (i * 3) = JS.entryX t
  /\ get3 (JS.velocities ps') i = (JS.freeStreamVelocity params, 0, 0)
  /\ (lateralExit t (x, y, z) ->
      (exists kj, y' = (random kj - 0.5) * JS.width t * 0.8
                  /\ z' = (random (S kj) - 0.5) * JS.height t * 0.8)
      /\ Rabs y' <= 0.8 * (Rabs (JS.width t) / 2)
      /\ Rabs z' <= 0.8 * (Rabs (JS.height t) / 2))
  /\ (~ lateralExit t (x, y, z) -> y' = y /\ z' = z).
Proof.
  intros Hrand Hp Hv Hi Hint Hexit ps' y' z'.
  destruct (advect_slots random t params ps k Hp Hv) as (_ & _ & Hslot).
  destruct (Hslot i Hi) as [kj Hkj]. fold ps' in Hkj.
  destruct (advectParticle_recycled t (JS.freeStreamVelocity params) 0.01
              (random kj) (random (S kj)) _ _ x y z Hint Hexit)
    as (y1 & z1 & Hstep & Hlat & Haxial).
  rewrite Hstep in Hkj. injection Hkj as Hx' Hy' Hz' Hvx Hvy Hvz.
  fold y' in Hy'. fold z' in Hz'.
  split; [exact Hx' |]. split; [unfold get3; now rewrite Hvx, Hvy, Hvz |]. split.
  - intros L. destruct (Hlat L) as [E1 E2]. rewrite Hy', Hz', E1, E2.
    split; [exists kj; split; reflexivity |].
    split; apply reseed_within_80_percent; apply Hrand.
  - intros L. destruct (Haxial L) as [E1 E2]. rewrite Hy', Hz'. now split.
Qed.

Lemma recycled_particle_is_reset_witness :
  let params :=
    {| JS.freeStreamVelocity := 1; JS.particleCount := 1;
       JS.fluidDensity := 1; JS.objectType := "sphere" |} in
  let ps := {| JS.positions := [10; 0; 0]; JS.velocities := [1; 0; 0] |} in
  let ps' := fst (JS.advect (fun _ => 0.5) JS.defaultTunnel params ps 0) in
  getf (JS.positions ps') 0 = -10 /\ get3 (JS.velocities ps') 0 = (1, 0, 0).
Proof.
  intros params ps ps'.
  destruct (recycled_particle_is_reset (fun _ => 0.5) JS.defaultTunnel params ps
              0 0 (10 + 1 * 0.01) (0 + 0 * 0.01) (0 + 0 * 0.01))
    as (Hx & Hv & _).
  - intros _. lra.
  - reflexivity.
  - reflexivity.
  - simpl. lia.
  - reflexivity.
  - left. simpl. lra.
  - split; [exact Hx | exact Hv].
Defined.

(** ** Positions stay inside the tunnel *)

Lemma advectParticle_in_bounds (t : JS.Tunnel) (U dt u1 u2 : R)
    (pv : Vec3 * Vec3) (x' y' z' : R) (v' : Vec3) :
  JS.entryX t <= JS.exitX t -> 0 <= JS.width t -> 0 <= JS.height t ->
  0 <= u1 < 1 -> 0 <= u2 < 1 ->
  advectParticle t U dt u1 u2 pv = ((x', y', z'), v') ->
  x' <= JS.exitX t /\ Rabs y' <= JS.width t / 2 /\ Rabs z' <= JS.height t / 2.
Proof.
  intros Hx Hw Hh Hu1 Hu2.
  pose proof (reseed_within_80_percent u1 (JS.width t) Hu1) as By.
  pose proof (reseed_within_80_percent u2 (JS.height t) Hu2) as Bz.
  rewrite (Rabs_pos_eq (JS.width t)) in By by assumption.
  rewrite (Rabs_pos_eq (JS.height t)) in Bz by assumption.
  destruct pv as [p v]. unfold advectParticle.
  destruct (integrate dt p v) as [[x y] z].
  destruct (decide (x > JS.exitX t)) as [Ex | Ex];
    destruct (decide (Rabs y > JS.width t / 2)) as [Ey | Ey];
    destruct (decide (Rabs z > JS.height t / 2)) as [Ez | Ez];
    intros E; injection E as <- <- <- _; repeat split; lra.
Qed.

(** The particle arrays after a tick that is not skipped. *)
Lemma updateParticles_particles (random : nat -> R) (compiled : JS.CompiledCall)
    (w : JS.World) (ps : JS.Particles) (obj : Vec3) :
  JS.particles w = Some ps ->
  JS.simulationObject w = Some obj ->
  JS.particles (JS.updateParticles random compiled w)
  = Some (fst (JS.advect random (default JS.defaultTunnel (JS.tunnelDimensions w))
                 (JS.simulationParams w)
                 (JS.velocityPhase compiled (JS.simulationParams w) obj
                    (JS.compiledSelected w) ps)
                 (JS.randomCursor w))).
Proof.
  intros Hps Hobj. unfold JS.updateParticles. rewrite Hps, Hobj.
  destruct (JS.advect _ _ _ _ _) as [ps' k']. reflexivity.
Qed.

Lemma tick_keeps_positions_bounded (random : nat -> R)
    (compiled : JS.CompiledCall) (w : JS.World) (ps : JS.Particles) (obj : Vec3) :
  (forall n, 0 <= random n < 1) ->
  JS.particles w = Some ps ->
  JS.simulationObject w = Some obj ->
  length (JS.positions ps) = (JS.particleCount (JS.simulationParams w) * 3)%nat ->
  length (JS.velocities ps) = (JS.particleCount (JS.simulationParams w) * 3)%nat ->
  let t := default JS.defaultTunnel (JS.tunnelDimensions w) in
  JS.entryX t <= JS.exitX t -> 0 <= JS.width t -> 0 <= JS.height t ->
  exists ps',
    JS.particles (JS.updateParticles random compiled w) = Some ps'
    /\ forall i, (i < JS.particleCount (JS.simulationParams w))%nat ->
         getf (JS.positions ps') (i * 3) <= JS.exitX t
         /\ Rabs (getf (JS.positions ps') (i * 3 + 1)) <= JS.width t / 2
         /\ Rabs (getf (JS.positions ps') (i * 3 + 2)) <= JS.height t / 2.
Proof.
  intros Hrand Hps Hobj Hlp Hlv t Hx Hw Hh.
  eexists. split; [exact (updateParticles_particles random compiled w ps obj Hps Hobj) |].
  intros i Hi.
  set (params := JS.simulationParams w) in *.
  set (ps1 := JS.velocityPhase compiled params obj (JS.compiledSelected w) ps).
  destruct (velocityPhase_shape compiled params obj (JS.compiledSelected w) ps Hlv)
    as [Hpos1 Hlen1]. fold ps1 in Hpos1, Hlen1.
  destruct (advect_slots random t params ps1 (JS.randomCursor w)) as (_ & _ & Hslot);
    [congruence | congruence |].
  destruct (Hslot i Hi) as [kj Hkj].
  symmetry in Hkj.
  exact (advectParticle_in_bounds t (JS.freeStreamVelocity params) 0.01
           (random kj) (random (S kj)) _ _ _ _ _ Hx Hw Hh
           (Hrand kj) (Hrand (S kj)) Hkj).
Qed.






(** ** Which evaluator feeds the velocities *)

(** When the compiled evaluator is selected and returns, the velocities
    become its results, without damping. *)
Lemma compiled_branch_copies (compiled : JS.CompiledCall)
    (params : JS.SimulationParams) (ox oy oz : R) (ps : JS.Particles)
    (res : list R) :
  length (JS.velocities ps) = (JS.particleCount params * 3)%nat ->
  compiled (JS.positions ps) (JS.particleCount params)
    (JS.freeStreamVelocity params) (JS.fluidDensity params) ox oy oz
    (JS.kindCode (JS.objectType params)) 1 = Some res ->
  forall i, (i < JS.particleCount params)%nat ->
    get3 (JS.velocities (JS.velocityPhase compiled params (ox, oy, oz) true ps)) i
    = get3 res i.
Proof.
  intros Hlen Hres i Hi. unfold JS.velocityPhase. rewrite Hres.
  now apply js_copyVelocities_slots.
Qed.

(** Otherwise they are damped toward the scalar evaluator's targets. *)
Lemma scalar_branch_smooths (compiled : JS.CompiledCall)
    (params : JS.SimulationParams) (ox oy oz : R) (ps : JS.Particles) :
  length (JS.velocities ps) = (JS.particleCount params * 3)%nat ->
  forall i, (i < JS.particleCount params)%nat ->
    get3 (JS.velocities (JS.velocityPhase compiled params (ox, oy, oz) false ps)) i
    = smooth (get3 (JS.velocities ps) i)
        (JS.targetVelocity (JS.freeStreamVelocity params) (JS.fluidDensity params)
           (JS.objectType params)
           (getf (JS.positions ps) (i * 3) - ox)
           (getf (JS.positions ps) (i * 3 + 1) - oy)
           (getf (JS.positions ps) (i * 3 + 2) - oz)).
Proof.
  intros Hlen i Hi. unfold JS.velocityPhase.
  now apply js_updateVelocitiesJS_slots.
Qed.

(** C3. With the compiled evaluator selected, a particle at the obstacle
    centre moving at (1,0,0) ends the tick with velocity (0,0,0), the
    evaluator's target itself, whereas damping toward that target would
    give (0.95,0,0): the compiled branch applies no smoothing. *)
Theorem compiled_tick_skips_smoothing (random : nat -> R) :
  exists ps',
    JS.particles
      (JS.updateParticles random JS.goEvaluator
         (oneParticle (0, 0, 0) (1, 0, 0) 1 "sphere" true)) = Some ps'
    /\ get3 (JS.velocities ps') 0 = (0, 0, 0)
    /\ smooth (1, 0, 0) (JS.targetVelocity 1 1 "sphere" (0 - 0) (0 - 0) (0 - 0))
       = (0.95, 0, 0).
Proof.
  set (w := oneParticle (0, 0, 0) (1, 0, 0) 1 "sphere" true).
  set (ps := {| JS.positions := [0; 0; 0]; JS.velocities := [1; 0; 0] |}).
  set (params := {| JS.freeStreamVelocity := 1; JS.particleCount := 1;
                    JS.fluidDensity := 1; JS.objectType := "sphere" |}).
  assert (Hin : sqrt ((0 - 0) * (0 - 0) + (0 - 0) * (0 - 0) + (0 - 0) * (0 - 0)) <= 1).
  { rewrite (sqrt_sq_nonneg _ 0) by lra. lra. }
  eexists. split.
  { exact (updateParticles_particles random JS.goEvaluator w ps (0, 0, 0)
             eq_refl eq_refl). }
  split.
  - change (JS.compiledSelected w) with true.
    change (JS.simulationParams w) with params.
    change (default JS.defaultTunnel (JS.tunnelDimensions w)) with JS.defaultTunnel.
    set (ps1 := JS.velocityPhase JS.goEvaluator params (0, 0, 0) true ps).
    assert (Hvel : get3 (JS.velocities ps1) 0 = (0, 0, 0)).
    { subst ps1.
      rewrite (compiled_branch_copies JS.goEvaluator params 0 0 0 ps
                 (Go.updateVelocities [0; 0; 0] 1 1 1 0 0 0 (JS.kindCode "sphere") 1))
        by (reflexivity || (simpl; lia)).
      rewrite go_updateVelocities_slots by lia.
      apply go_inside_zero. exact Hin. }
    destruct (velocityPhase_shape JS.goEvaluator params (0, 0, 0) true ps eq_refl)
      as [Hpos Hlen]. fold ps1 in Hpos, Hlen.
    destruct (advect_slots random JS.defaultTunnel params ps1 (JS.randomCursor w))
      as (_ & _ & Hslot); [rewrite Hpos; reflexivity | rewrite Hlen; reflexivity |].
    destruct (Hslot 0%nat ltac:(simpl; lia)) as [kj Hkj].
    rewrite Hvel, Hpos in Hkj.
    change (get3 (JS.positions ps) 0) with (0, 0, 0) in Hkj.
    rewrite (advectParticle_kept JS.defaultTunnel _ 0.01 (random kj) (random (S kj))
               (0, 0, 0) (0, 0, 0) (0 + 0 * 0.01) (0 + 0 * 0.01) (0 + 0 * 0.01)) in Hkj.
    + exact (f_equal snd Hkj).
    + reflexivity.
    + unfold exitsTunnel, lateralExit. simpl.
      replace (0 + 0 * 0.01) with 0 by lra. rewrite Rabs_R0. lra.
  - rewrite js_inside_zero by exact Hin. unfold smooth. vec3_lra.
Qed.

(** ** A throwing compiled evaluator *)

(** C9. If the compiled evaluator is selected and throws during a tick,
    the tick is the one the scalar evaluator produces; apart from the
    particle arrays and the random draws, nothing changes: the flags,
    [wasmLoaded] among them, keep their values, so the compiled branch is
    selected again on the next tick and its results are used as soon as
    it returns. *)
Theorem compiled_exception_falls_back
    (random : nat -> R) (compiled : JS.CompiledCall) (w : JS.World)
    (ps : JS.Particles) (ox oy oz : R) :
  JS.particles w = Some ps ->
  JS.simulationObject w = Some (ox, oy, oz) ->
  JS.compiledSelected w = true ->
  let params := JS.simulationParams w in
  let kind := JS.kindCode (JS.objectType params) in
  compiled (JS.positions ps) (JS.particleCount params)
    (JS.freeStreamVelocity params) (JS.fluidDensity params) ox oy oz kind 1 = None ->
  let w' := JS.updateParticles random compiled w in
  let scalar :=
    JS.advect random (default JS.defaultTunnel (JS.tunnelDimensions w)) params
      (JS.updateVelocitiesJS params (ox, oy, oz) ps) (JS.randomCursor w) in
  JS.particles w' = Some (fst scalar)
  /\ JS.randomCursor w' = snd scalar
  /\ JS.simulationObject w' = JS.simulationObject w
  /\ JS.simulationParams w' = JS.simulationParams w
  /\ JS.tunnelDimensions w' = JS.tunnelDimensions w
  /\ JS.wasmLoaded w' = JS.wasmLoaded w
  /\ JS.wasmModule w' = JS.wasmModule w
  /\ JS.updateVelocitiesIsFunction w' = JS.updateVelocitiesIsFunction w
  /\ JS.compiledSelected w' = true
  /\ forall (next : JS.CompiledCall) (res : list R),
       next (JS.positions (fst scalar)) (JS.particleCount params)
         (JS.freeStreamVelocity params) (JS.fluidDensity params) ox oy oz kind 1
       = Some res ->
       JS.velocityPhase next params (ox, oy, oz) (JS.compiledSelected w') (fst scalar)
       = JS.copyVelocities (JS.particleCount params) res (fst scalar).
Proof.
  intros Hps Hobj Hsel params kind Hthrow w' scalar.
  assert (Hw' : w' = {| JS.particles := Some (fst scalar);
                        JS.simulationObject := JS.simulationObject w;
                        JS.simulationParams := JS.simulationParams w;
                        JS.tunnelDimensions := JS.tunnelDimensions w;
                        JS.wasmLoaded := JS.wasmLoaded w;
                        JS.wasmModule := JS.wasmModule w;
                        JS.updateVelocitiesIsFunction := JS.updateVelocitiesIsFunction w;
                        JS.randomCursor := snd scalar |}).
  { subst w' scalar. unfold JS.updateParticles. rewrite Hps, Hobj, Hsel.
    unfold JS.velocityPhase. fold params. fold kind. rewrite Hthrow.
    destruct (JS.advect _ _ _ _ _) as [ps' k']. reflexivity. }
  assert (Hsel' : JS.compiledSelected w' = true).
  { rewrite Hw'. exact Hsel. }
  rewrite Hsel'. rewrite Hw'. cbn [JS.particles JS.randomCursor JS.simulationObject
    JS.simulationParams JS.tunnelDimensions JS.wasmLoaded JS.wasmModule
    JS.updateVelocitiesIsFunction].
  repeat (split; [reflexivity |]).
  intros next res Hres. unfold JS.velocityPhase.
  unfold kind in Hres. now rewrite Hres.
Qed.

Lemma compiled_exception_falls_back_witness :
  let w := oneParticle (0, 0, 0) (1, 0, 0) 1 "sphere" true in
  let throwing : JS.CompiledCall := fun _ _ _ _ _ _ _ _ _ => None in
  let w' := JS.updateParticles (fun _ => 0.5) throwing w in
  JS.wasmLoaded w' = JS.wasmLoaded w /\ JS.compiledSelected w' = true.
Proof.
  intros w throwing w'.
  destruct (compiled_exception_falls_back (fun _ => 0.5) throwing w
              {| JS.positions := [0; 0; 0]; JS.velocities := [1; 0; 0] |} 0 0 0)
    as (_ & _ & _ & _ & _ & Hloaded & _ & _ & Hsel & _).
  - reflexivity.
  - reflexivity.
  - reflexivity.
  - reflexivity.
  - split; [exact Hloaded | exact Hsel].
Defined.

(** * Further properties of the kernels and of the page *)

(** ** The two Go kernels as array functions *)

Lemma go_updateVelocities_length (positionsJS : list R) (count : nat)
    (U rho ox oy oz : R) (kind : Z) (radius : R) :
  length (Go.updateVelocities positionsJS count U rho ox oy oz kind radius)
  = (count * 3)%nat.
Proof.
  unfold Go.updateVelocities.
  match goal with |- length (forLoop ?b 0 count ?s0) = _ =>
    destruct (forLoop_slots (list R) Vec3 unit get3 b
                (fun r => length r = (count * 3)%nat)
                (fun _ _ _ _ => True)
                count) with (n := count) (start := 0%nat) (s := s0)
      as (Hinv & _ & _)
  end.
  - intros j r Hj Hlen. destruct (Go.velocityAt _ _ _ _ _ _ _) as [[vx vy] vz].
    now rewrite !length_insert.
  - intros j m r Hj Hlen Hne. destruct (Go.velocityAt _ _ _ _ _ _ _) as [[vx vy] vz].
    rewrite !(get3_insert_ne _ j m) by lia. reflexivity.
  - intros j r Hj Hlen. exists tt. exact I.
  - lia.
  - apply length_replicate.
  - exact Hinv.
Qed.

Lemma go_calculatePressure_length (velocitiesJS : list R) (count : nat) (U rho : R) :
  length (Go.calculatePressure velocitiesJS count U rho) = count.
Proof.
  unfold Go.calculatePressure.
  match goal with |- length (forLoop ?b 0 count ?s0) = _ =>
    destruct (forLoop_slots (list R) R unit getf b
                (fun r => length r = count)
                (fun _ _ _ _ => True)
                count) with (n := count) (start := 0%nat) (s := s0)
      as (Hinv & _ & _)
  end.
  - intros j r Hj Hlen. now rewrite length_insert.
  - intros j m r Hj Hlen Hne. now apply getf_insert_ne.
  - intros j r Hj Hlen. exists tt. exact I.
  - lia.
  - apply length_replicate.
  - exact Hinv.
Qed.

(** X1. Given a position array of [count * 3] entries, [updateVelocities]
    returns an array of exactly [count * 3] entries (empty for
    [count = 0]) whose triple [i] is the velocity formula applied to
    particle [i]'s position relative to the obstacle, whatever the kind
    code and the radius. *)
Theorem batch_velocities_are_pointwise
    (positionsJS : list R) (count : nat) (U rho ox oy oz : R)
    (kind : Z) (radius : R) :
  length positionsJS = (count * 3)%nat ->
  let result := Go.updateVelocities positionsJS count U rho ox oy oz kind radius in
  length result = (count * 3)%nat
  /\ forall i, (i < count)%nat ->
       get3 result i
       = Go.velocityAt U rho kind radius
           (getf positionsJS (i * 3) - ox)
           (getf positionsJS (i * 3 + 1) - oy)
           (getf positionsJS (i * 3 + 2) - oz).
Proof.
  intros Hlen result. split.
  - apply go_updateVelocities_length.
  - intros i Hi. now apply go_updateVelocities_slots.
Qed.

Lemma batch_velocities_are_pointwise_witness :
  length (Go.updateVelocities [2; 0; 0; 0; 0; 0] 2 1 1 0 0 0 Go.SPHERE 1) = 6%nat
  /\ get3 (Go.updateVelocities [2; 0; 0; 0; 0; 0] 2 1 1 0 0 0 Go.SPHERE 1) 1
     = Go.velocityAt 1 1 Go.SPHERE 1 (0 - 0) (0 - 0) (0 - 0).
Proof.
  destruct (batch_velocities_are_pointwise [2; 0; 0; 0; 0; 0] 2 1 1 0 0 0 Go.SPHERE 1
              eq_refl)
    as [Hlen Hslot].
  split; [exact Hlen |]. apply (Hslot 1%nat). lia.
Defined.

(** X2. Given a velocity array of [count * 3] entries, [calculatePressure]
    returns one entry per particle, and entry [i] is the Bernoulli value
    0.5*rho*U^2 - 0.5*rho*|v_i|^2 of the velocity triple [i]. *)
Theorem batch_pressures_are_pointwise
    (velocitiesJS : list R) (count : nat) (U rho : R) :
  length velocitiesJS = (count * 3)%nat ->
  let result := Go.calculatePressure velocitiesJS count U rho in
  length result = count
  /\ forall i, (i < count)%nat ->
       let '(vx, vy, vz) := get3 velocitiesJS i in
       getf result i = 0.5 * rho * U * U - 0.5 * rho * (vx * vx + vy * vy + vz * vz).
Proof.
  intros Hlen result. split.
  - apply go_calculatePressure_length.
  - intros i Hi. subst result. rewrite go_calculatePressure_slots by assumption.
    destruct (get3 velocitiesJS i) as [[vx vy] vz]. reflexivity.
Qed.

Lemma batch_pressures_are_pointwise_witness :
  getf (Go.calculatePressure [1; 2; 3] 1 1 1) 0
  = 0.5 * 1 * 1 * 1 - 0.5 * 1 * (1 * 1 + 2 * 2 + 3 * 3).
Proof.
  destruct (batch_pressures_are_pointwise [1; 2; 3] 1 1 1 eq_refl) as [_ Hslot].
  apply (Hslot 0%nat). lia.
Defined.

(** X3. Feeding the velocities [updateVelocities] computes from a
    position array of [count * 3] entries to [calculatePressure]: a
    particle inside the obstacle (r <= radius) gets the stagnation
    pressure 0.5*rho*U^2, whatever the obstacle kind. *)
Theorem pressure_inside_is_stagnation
    (positionsJS : list R) (count : nat) (U rho ox oy oz : R)
    (kind : Z) (radius : R) (i : nat) :
  length positionsJS = (count * 3)%nat ->
  (i < count)%nat ->
  sqrt ((getf positionsJS (i * 3) - ox) * (getf positionsJS (i * 3) - ox)
        + (getf positionsJS (i * 3 + 1) - oy) * (getf positionsJS (i * 3 + 1) - oy)
        + (getf positionsJS (i * 3 + 2) - oz) * (getf positionsJS (i * 3 + 2) - oz))
  <= radius ->
  getf (Go.calculatePressure
          (Go.updateVelocities positionsJS count U rho ox oy oz kind radius)
          count U rho) i
  = 0.5 * rho * U * U.
Proof.
  intros Hlen Hi Hin.
  rewrite go_calculatePressure_slots, go_updateVelocities_slots by assumption.
  rewrite go_inside_zero by assumption.
  unfold Go.pressureAt. lra.
Qed.

Lemma pressure_inside_is_stagnation_witness :
  getf (Go.calculatePressure
          (Go.updateVelocities [0; 0; 0] 1 3 2 0 0 0 Go.CYLINDER 1) 1 3 2) 0
  = 0.5 * 2 * 3 * 3.
Proof.
  apply (pressure_inside_is_stagnation [0; 0; 0] 1 3 2 0 0 0 Go.CYLINDER 1 0).
  - reflexivity.
  - lia.
  - unfold getf; simpl. rewrite (sqrt_sq_nonneg _ 0) by lra. lra.
Defined.

(** X4. The pressure depends on the velocity through its magnitude only;
    it vanishes when the speed equals the free-stream speed |U|, and for a
    non-negative density it never exceeds the stagnation pressure
    0.5*rho*U^2. *)
Theorem pressure_is_a_function_of_speed (U rho : R) (v1 v2 : Vec3) :
  (norm3 v1 = norm3 v2 -> Go.pressureAt U rho v1 = Go.pressureAt U rho v2)
  /\ (norm3 v1 = Rabs U -> Go.pressureAt U rho v1 = 0)
  /\ (0 <= rho -> Go.pressureAt U rho v1 <= 0.5 * rho * U * U).
Proof.
  destruct v1 as [[x1 y1] z1], v2 as [[x2 y2] z2]. unfold norm3, Go.pressureAt.
  assert (S1 : 0 <= x1 * x1 + y1 * y1 + z1 * z1) by nra.
  assert (S2 : 0 <= x2 * x2 + y2 * y2 + z2 * z2) by nra.
  repeat split.
  - intros E. apply (f_equal (fun t => t * t)) in E. cbv beta in E.
    rewrite (sqrt_sqrt _ S1), (sqrt_sqrt _ S2) in E. now rewrite E.
  - intros E. apply (f_equal (fun t => t * t)) in E. cbv beta in E.
    rewrite (sqrt_sqrt _ S1) in E.
    assert (Rabs U * Rabs U = U * U).
    { rewrite <- Rabs_mult. apply Rabs_pos_eq. nra. }
    rewrite E, H. lra.
  - intros Hrho.
    pose proof (Rmult_le_pos _ _ Hrho S1). lra.
Qed.

Lemma pressure_is_a_function_of_speed_witness :
  Go.pressureAt 2 1 (0, 2, 0) = Go.pressureAt 2 1 (2, 0, 0)
  /\ Go.pressureAt 2 1 (0, 2, 0) = 0
  /\ Go.pressureAt 2 1 (0, 2, 0) <= 0.5 * 1 * 2 * 2.
Proof.
  assert (N1 : norm3 (0, 2, 0) = 2) by (apply sqrt_sq_nonneg; lra).
  assert (N2 : norm3 (2, 0, 0) = 2) by (apply sqrt_sq_nonneg; lra).
  destruct (pressure_is_a_function_of_speed 2 1 (0, 2, 0) (2, 0, 0)) as (H1 & H2 & H3).
  split; [apply H1; now rewrite N1, N2 |].
  split; [apply H2; rewrite N1, Rabs_pos_eq by lra; reflexivity | apply H3; lra].
Defined.

(** ** The shape of the velocity field *)

(** X5. Outside a sphere or a cylinder of positive radius the flow has no
    normal component left at the surface: the radial flux of the computed
    velocity is U*x*(1 - radius^3/r^3) for the sphere and, in the plane,
    U*x*(1 - (radius/rxy)^2) for the cylinder, so it tends to zero as the
    point approaches the obstacle. *)
Theorem radial_flux_vanishes_at_surface (U rho radius x y z : R) :
  0 < radius ->
  (sqrt (x * x + y * y + z * z) > radius ->
   let '(vx, vy, vz) := Go.velocityAt U rho Go.SPHERE radius x y z in
   vx * x + vy * y + vz * z
   = U * x * (1 - radius ^ 3 / sqrt (x * x + y * y + z * z) ^ 3))
  /\ (sqrt (x * x + y * y) > radius ->
      let '(vx, vy, _) := Go.velocityAt U rho Go.CYLINDER radius x y z in
      vx * x + vy * y = U * x * (1 - (radius / sqrt (x * x + y * y)) ^ 2)).
Proof.
  intros Hrad. split.
  - intros Hout.
    destruct (sqrt_gt_pos (x * x + y * y + z * z) radius) as [Hr Hrr];
      [nra | assumption | assumption |].
    unfold Go.velocityAt.
    destruct (decide (sqrt (x * x + y * y + z * z) > radius)) as [_ | C];
      [| contradiction].
    simpl Z.eqb. cbv iota.
    set (r := sqrt (x * x + y * y + z * z)) in *.
    set (a := radius ^ 3 / r ^ 3).
    assert (Hb : / (2 * r * r) * (x * x + y * y + z * z) = / 2).
    { rewrite <- Hrr. field. lra. }
    unfold Rdiv. set (b := / (2 * r * r)) in *.
    transitivity (U * x - U * a * x * (3 * (b * (x * x + y * y + z * z)) - 0.5)); [lra |].
    rewrite Hb. lra.
  - intros Hxy.
    destruct (sqrt_gt_pos (x * x + y * y) radius) as [Hr Hrr];
      [nra | assumption | assumption |].
    assert (Hout : sqrt (x * x + y * y + z * z) > radius).
    { apply Rlt_le_trans with (sqrt (x * x + y * y)); [assumption |].
      apply sqrt_le_1_alt. nra. }
    unfold Go.velocityAt.
    destruct (decide (sqrt (x * x + y * y + z * z) > radius)) as [_ | C];
      [| contradiction].
    simpl Z.eqb. cbv iota.
    destruct (decide (sqrt (x * x + y * y) > radius)) as [_ | C]; [| contradiction].
    set (rxy := sqrt (x * x + y * y)) in *.
    set (a := (radius / rxy) ^ 2).
    assert (Hb : / (rxy * rxy) * (x * x + y * y) = 1).
    { rewrite <- Hrr. field. lra. }
    unfold Rdiv. fold (radius / rxy). fold a. set (b := / (rxy * rxy)) in *.
    transitivity (U * x - U * a * x * (2 * (b * (x * x + y * y)) - 1)); [lra |].
    rewrite Hb. lra.
Qed.

Lemma radial_flux_vanishes_at_surface_witness :
  let '(vx, vy, vz) := Go.velocityAt 1 1 Go.SPHERE 1 2 0 0 in
  vx * 2 + vy * 0 + vz * 0 = 1 * 2 * (1 - 1 ^ 3 / sqrt (2 * 2 + 0 * 0 + 0 * 0) ^ 3).
Proof.
  apply (proj1 (radial_flux_vanishes_at_surface 1 1 1 2 0 0 ltac:(lra))).
  rewrite (sqrt_sq_nonneg _ 2) by lra. lra.
Defined.

Lemma damped_unit_bounds (a t : R) :
  0 < a < 1 -> -1 <= t <= 1 -> 0 <= 1 - a * t <= 2.
Proof. intros Ha Ht. nra. Qed.

Lemma scaled_unit_bounds (U m : R) : 0 <= U -> 0 <= m <= 2 -> 0 <= U * m <= 2 * U.
Proof. intros HU Hm. nra. Qed.

Lemma squared_ratio_below_one (radius rxy : R) :
  0 < radius -> rxy > radius -> 0 < (radius / rxy) ^ 2 < 1.
Proof.
  intros Hrad Hout.
  assert (Hq : 0 < radius / rxy) by (apply Rdiv_lt_0_compat; lra).
  assert (Hq1 : radius / rxy < 1).
  { apply Rmult_lt_reg_r with rxy; [lra |].
    unfold Rdiv. rewrite Rmult_assoc, Rinv_l by lra. lra. }
  simpl. nra.
Qed.

Lemma go_vx_bounds (U rho : R) (kind : Z) (radius x y z : R) :
  0 < radius -> 0 <= U ->
  0 <= fst (fst (Go.velocityAt U rho kind radius x y z)) <= 2 * U.
Proof.
  intros Hrad HU.
  assert (Hzero : 0 <= 0 <= 2 * U) by lra.
  assert (Hfree : 0 <= U <= 2 * U) by lra.
  unfold Go.velocityAt.
  destruct (decide (sqrt (x * x + y * y + z * z) > radius)) as [Hout | _];
    [| exact Hzero].
  destruct (Z.eqb kind Go.SPHERE); [| destruct (Z.eqb kind Go.CYLINDER);
    [| destruct (Z.eqb kind Go.AIRFOIL); [| exact Hfree]]]; cbn [fst].
  - destruct (sqrt_gt_pos (x * x + y * y + z * z) radius) as [Hr Hrr];
      [nra | assumption | assumption |].
    set (r := sqrt (x * x + y * y + z * z)) in *.
    apply scaled_unit_bounds; [assumption |]. apply damped_unit_bounds.
    + split; [apply Rdiv_lt_0_compat; apply pow_lt; lra |].
      apply Rmult_lt_reg_r with (r ^ 3); [apply pow_lt; lra |].
      unfold Rdiv. rewrite Rmult_assoc, Rinv_l by (apply pow_nonzero; lra).
      simpl. assert (radius * radius < r * r) by nra. nra.
    + assert (Hb : 0 < / (2 * r * r)) by (apply Rinv_0_lt_compat; nra).
      assert (Hbr : / (2 * r * r) * (2 * r * r) = 1) by (apply Rinv_l; nra).
      unfold Rdiv. set (b := / (2 * r * r)) in *.
      assert (0 <= x * x <= r * r) by nra.
      assert (0 <= 3 * x * x * b) by (apply Rmult_le_pos; nra).
      assert (3 * x * x * b <= 3 * (r * r) * b) by nra.
      nra.
  - destruct (decide (sqrt (x * x + y * y) > radius)) as [Hxy | _]; [| exact Hzero].
    destruct (sqrt_gt_pos (x * x + y * y) radius) as [Hr Hrr];
      [nra | assumption | assumption |].
    set (rxy := sqrt (x * x + y * y)) in *. cbn [fst].
    apply scaled_unit_bounds; [assumption |]. apply damped_unit_bounds.
    + now apply squared_ratio_below_one.
    + assert (Hb : 0 < / (rxy * rxy)) by (apply Rinv_0_lt_compat; nra).
      assert (Hbr : / (rxy * rxy) * (rxy * rxy) = 1) by (apply Rinv_l; nra).
      unfold Rdiv. set (b := / (rxy * rxy)) in *.
      assert (0 <= x * x <= rxy * rxy) by nra.
      assert (0 <= 2 * x * x * b) by (apply Rmult_le_pos; nra).
      assert (2 * x * x * b <= 2 * (rxy * rxy) * b) by nra.
      nra.
  - destruct (decide (sqrt (x * x + y * y) > radius)) as [Hxy | _]; [| exact Hzero].
    cbn [fst]. apply scaled_unit_bounds; [assumption |]. apply damped_unit_bounds.
    + now apply squared_ratio_below_one.
    + apply COS_bound.
Qed.

(** X6. In a non-reversed stream (U >= 0) around an obstacle of positive
    radius the streamwise velocity the compiled evaluator returns is never
    negative and never above 2*U, at any point and for any kind code: the
    computed flow does not turn back. *)
Theorem streamwise_velocity_never_reverses
    (U rho : R) (kind : Z) (radius x y z : R) :
  0 < radius -> 0 <= U ->
  let '(vx, _, _) := Go.velocityAt U rho kind radius x y z in
  0 <= vx <= 2 * U.
Proof.
  intros Hrad HU. pose proof (go_vx_bounds U rho kind radius x y z Hrad HU) as H.
  destruct (Go.velocityAt U rho kind radius x y z) as [[vx vy] vz]. exact H.
Qed.

Lemma streamwise_velocity_never_reverses_witness :
  let '(vx, _, _) := Go.velocityAt 1 1 Go.AIRFOIL 1 0 3 0 in 0 <= vx <= 2 * 1.
Proof.
  apply (streamwise_velocity_never_reverses 1 1 Go.AIRFOIL 1 0 3 0); lra.
Defined.

(** ** How the copies of the velocity formula relate *)

Lemma not_three_kinds (t : string) :
  ~ In t threeKinds ->
  String.eqb t "sphere" = false /\ String.eqb t "cylinder" = false
  /\ String.eqb t "airfoil" = false.
Proof.
  intros Hn. repeat split; apply String.eqb_neq; intros ->; apply Hn; simpl; tauto.
Qed.

(** X7. A kind string other than 'sphere', 'cylinder' and 'airfoil' is
    sent to the compiled evaluator as code 2 (airfoil), while the scalar
    evaluator's switch matches nothing and leaves the free-stream vector:
    outside the obstacle, with U <> 0, the two evaluators then return
    different velocities at every point. *)
Theorem unknown_kind_splits_the_evaluators (U rho : R) (t : string) (x y z : R) :
  ~ In t threeKinds -> U <> 0 ->
  sqrt (x * x + y * y + z * z) > 1 ->
  JS.kindCode t = Go.AIRFOIL
  /\ JS.targetVelocity U rho t x y z = (U, 0, 0)
  /\ Go.velocityAt U rho (JS.kindCode t) 1 x y z <> JS.targetVelocity U rho t x y z.
Proof.
  intros Hn HU Hout. destruct (not_three_kinds t Hn) as (E1 & E2 & E3).
  assert (Hcode : JS.kindCode t = Go.AIRFOIL).
  { unfold JS.kindCode. now rewrite E1, E2. }
  assert (Hjs : JS.targetVelocity U rho t x y z = (U, 0, 0)).
  { unfold JS.targetVelocity. rewrite E1, E2, E3.
    destruct (decide (sqrt (x * x + y * y + z * z) > 1)); [reflexivity | contradiction]. }
  split; [exact Hcode |]. split; [exact Hjs |].
  rewrite Hcode, Hjs. unfold Go.velocityAt.
  destruct (decide (sqrt (x * x + y * y + z * z) > 1)) as [_ | C]; [| contradiction].
  simpl Z.eqb. cbv iota.
  destruct (decide (sqrt (x * x + y * y) > 1)) as [Hxy | _].
  - apply airfoil_perturbed; [lra | assumption | assumption].
  - intros E. injection E. auto.
Qed.

Lemma unknown_kind_splits_the_evaluators_witness :
  JS.kindCode "cube" = Go.AIRFOIL
  /\ JS.targetVelocity 1 1 "cube" 2 0 0 = (1, 0, 0)
  /\ Go.velocityAt 1 1 (JS.kindCode "cube") 1 2 0 0 <> JS.targetVelocity 1 1 "cube" 2 0 0.
Proof.
  apply (unknown_kind_splits_the_evaluators 1 1 "cube" 2 0 0).
  - simpl. intros [H | [H | [H | []]]]; discriminate H.
  - lra.
  - rewrite (sqrt_sq_nonneg _ 2) by lra. lra.
Defined.

(** X8. The field slice of the visualisation evaluates the same velocity
    as the scalar evaluator of the simulation for every kind string except
    'cylinder'; for the cylinder it reproduces the two in-plane components
    and drops the z component, which the simulation sets to
    z * pressure * 0.01. *)
Theorem field_slice_matches_scalar_evaluator
    (U rho : R) (t : string) (x y z : R) :
  (t <> "cylinder"%string ->
   FieldView.fieldVelocity U t x y z = JS.targetVelocity U rho t x y z)
  /\ (let '(fx, fy, fz) := FieldView.fieldVelocity U "cylinder" x y z in
      let '(vx, vy, vz) := JS.targetVelocity U rho "cylinder" x y z in
      fx = vx /\ fy = vy /\ fz = 0
      /\ (sqrt (x * x + y * y) > 1 ->
          vz = z * (rho * (0.5 * U * U - 0.5 * (vx * vx + vy * vy))) * 0.01)).
Proof.
  split.
  - intros Hne. unfold FieldView.fieldVelocity, JS.targetVelocity.
    destruct (String.eqb t "cylinder") eqn:E.
    + apply String.eqb_eq in E. contradiction.
    + reflexivity.
  - unfold FieldView.fieldVelocity, JS.targetVelocity. simpl String.eqb. cbv iota.
    destruct (decide (sqrt (x * x + y * y + z * z) > 1)) as [Hout | Hin].
    + destruct (decide (sqrt (x * x + y * y) > 1)) as [Hxy | Hxy].
      * repeat split; try reflexivity. intros _. lra.
      * repeat split; try reflexivity. intros C. contradiction.
    + repeat split; try reflexivity. intros Hxy. exfalso. apply Hin.
      apply Rlt_le_trans with (sqrt (x * x + y * y)); [assumption |].
      apply sqrt_le_1_alt. nra.
Qed.

Lemma field_slice_matches_scalar_evaluator_witness :
  FieldView.fieldVelocity 1 "airfoil" 0 2 1 = JS.targetVelocity 1 1 "airfoil" 0 2 1.
Proof.
  apply (proj1 (field_slice_matches_scalar_evaluator 1 1 "airfoil" 0 2 1)).
  discriminate.
Defined.

(** X9. Outside the unit obstacle the older scalar evaluator and the
    current one agree on the sphere; on the cylinder they agree in the
    plane and the older one has no z velocity; on the airfoil (rxy > 1)
    they agree on vx, the older one has no z velocity, and its vy is lower
    by U * sin(angle) / rxy, because its circulation is 2*pi*... where the
    current one and the Go kernel use 4*pi*.... *)
Theorem older_evaluator_against_current (U rho x y z : R) :
  sqrt (x * x + y * y + z * z) > 1 ->
  Legacy.targetVelocity U "sphere" x y z = JS.targetVelocity U rho "sphere" x y z
  /\ (let '(lx, ly, lz) := Legacy.targetVelocity U "cylinder" x y z in
      let '(vx, vy, _) := JS.targetVelocity U rho "cylinder" x y z in
      lx = vx /\ ly = vy /\ lz = 0)
  /\ (sqrt (x * x + y * y) > 1 ->
      let '(lx, ly, lz) := Legacy.targetVelocity U "airfoil" x y z in
      let '(vx, vy, _) := JS.targetVelocity U rho "airfoil" x y z in
      lx = vx /\ lz = 0
      /\ vy = ly + U * sin (atan2 y x) / sqrt (x * x + y * y)).
Proof.
  intros Hout. unfold Legacy.targetVelocity, JS.targetVelocity.
  destruct (decide (sqrt (x * x + y * y + z * z) > 1)) as [_ | C]; [| contradiction].
  simpl String.eqb. cbv iota.
  split; [reflexivity |]. split.
  - destruct (decide (sqrt (x * x + y * y) > 1)); repeat split; reflexivity.
  - intros Hxy.
    destruct (decide (sqrt (x * x + y * y) > 1)) as [_ | C]; [| contradiction].
    repeat split; try reflexivity.
    pose proof PI_RGT_0. set (rxy := sqrt (x * x + y * y)) in *.
    field. split; lra.
Qed.

Lemma older_evaluator_against_current_witness :
  Legacy.targetVelocity 1 "sphere" 2 0 0 = JS.targetVelocity 1 1 "sphere" 2 0 0.
Proof.
  apply (older_evaluator_against_current 1 1 2 0 0).
  rewrite (sqrt_sq_nonneg _ 2) by lra. lra.
Defined.

(** ** What a tick leaves alone *)

(** A loop keeps what every pass keeps. *)
Lemma forLoop_invariant {St : Type} (P : nat -> St -> Prop)
    (body : nat -> St -> St) (n start : nat) (s : St) :
  P start s ->
  (forall i s', (start <= i < start + n)%nat -> P i s' -> P (S i) (body i s')) ->
  P (start + n)%nat (forLoop body start n s).
Proof.
  revert start s. induction n as [| n IH]; intros start s H0 Hstep; simpl.
  - now rewrite Nat.add_0_r.
  - replace (start + S n)%nat with (S start + n)%nat by lia.
    apply IH.
    + apply Hstep; [lia | assumption].
    + intros i s' Hi. apply Hstep. lia.
Qed.

Lemma advectBody_cursor (random : nat -> R) (t : JS.Tunnel) (U dt : R)
    (i : nat) (pos vel : list R) (k : nat) :
  snd (JS.advectBody random t U dt i (pos, vel, k)) = k
  \/ snd (JS.advectBody random t U dt i (pos, vel, k)) = S (S k).
Proof.
  unfold JS.advectBody.
  destruct (_ || _ || _); [| left; reflexivity].
  destruct (_ || _); [right | left]; reflexivity.
Qed.

Lemma advect_cursor_bounds (random : nat -> R) (t : JS.Tunnel)
    (params : JS.SimulationParams) (ps : JS.Particles) (k : nat) :
  (k <= snd (JS.advect random t params ps k)
     <= k + 2 * JS.particleCount params)%nat.
Proof.
  unfold JS.advect.
  pose proof (forLoop_invariant
                (fun i (st : list R * list R * nat) => (k <= snd st <= k + 2 * i)%nat)
                (JS.advectBody random t (JS.freeStreamVelocity params) 0.01)
                (JS.particleCount params) 0
                (JS.positions ps, JS.velocities ps, k)) as H.
  destruct (forLoop _ _ _ _) as [[p' v'] k']. cbn [snd] in *.
  apply H.
  - lia.
  - intros i [[p v] c] Hi Hc. cbn [snd] in Hc.
    destruct (advectBody_cursor random t (JS.freeStreamVelocity params) 0.01 i p v c)
      as [E | E]; rewrite E; lia.
Qed.

(** X10. A tick writes the particle arrays and draws random numbers, and
    nothing else: the obstacle, the flow parameters, the stored tunnel and
    the three flags of the compiled evaluator are unchanged whichever
    evaluator ran; while [particles] or [simulationObject] is unset the
    tick changes nothing at all; otherwise the arrays keep their lengths,
    and at most two random numbers are drawn per particle. *)
Theorem tick_writes_only_particles
    (random : nat -> R) (compiled : JS.CompiledCall) (w : JS.World) :
  let w' := JS.updateParticles random compiled w in
  JS.simulationObject w' = JS.simulationObject w
  /\ JS.simulationParams w' = JS.simulationParams w
  /\ JS.tunnelDimensions w' = JS.tunnelDimensions w
  /\ JS.wasmLoaded w' = JS.wasmLoaded w
  /\ JS.wasmModule w' = JS.wasmModule w
  /\ JS.updateVelocitiesIsFunction w' = JS.updateVelocitiesIsFunction w
  /\ (JS.particles w = None \/ JS.simulationObject w = None -> w' = w)
  /\ (JS.randomCursor w <= JS.randomCursor w'
        <= JS.randomCursor w + 2 * JS.particleCount (JS.simulationParams w))%nat
  /\ forall ps,
       JS.particles w = Some ps ->
       JS.simulationObject w <> None ->
       length (JS.positions ps) = (JS.particleCount (JS.simulationParams w) * 3)%nat ->
       length (JS.velocities ps) = (JS.particleCount (JS.simulationParams w) * 3)%nat ->
       exists ps',
         JS.particles w' = Some ps'
         /\ length (JS.positions ps') = length (JS.positions ps)
         /\ length (JS.velocities ps') = length (JS.velocities ps).
Proof.
  intros w'.
  assert (Hskip : JS.particles w = None \/ JS.simulationObject w = None -> w' = w).
  { subst w'. unfold JS.updateParticles. intros [E | E]; rewrite E.
    - reflexivity.
    - destruct (JS.particles w); reflexivity. }
  assert (Hcases : (exists ps obj, JS.particles w = Some ps
                                   /\ JS.simulationObject w = Some obj)
                   \/ (JS.particles w = None \/ JS.simulationObject w = None)).
  { destruct (JS.particles w) as [ps |]; [| right; left; reflexivity].
    destruct (JS.simulationObject w) as [obj |]; [| right; right; reflexivity].
    left. exists ps, obj. split; reflexivity. }
  destruct Hcases as [(ps & obj & Hps & Hobj) | Hnone].
  - set (t := default JS.defaultTunnel (JS.tunnelDimensions w)).
    set (params := JS.simulationParams w).
    set (ps1 := JS.velocityPhase compiled params obj (JS.compiledSelected w) ps).
    pose proof (advect_cursor_bounds random t params ps1 (JS.randomCursor w)) as Hk.
    pose proof (advect_slots random t params ps1 (JS.randomCursor w)) as Hslots.
    assert (Hw' : w' = {| JS.particles := Some (fst (JS.advect random t params ps1
                                                      (JS.randomCursor w)));
                          JS.simulationObject := JS.simulationObject w;
                          JS.simulationParams := JS.simulationParams w;
                          JS.tunnelDimensions := JS.tunnelDimensions w;
                          JS.wasmLoaded := JS.wasmLoaded w;
                          JS.wasmModule := JS.wasmModule w;
                          JS.updateVelocitiesIsFunction := JS.updateVelocitiesIsFunction w;
                          JS.randomCursor := snd (JS.advect random t params ps1
                                                    (JS.randomCursor w)) |}).
    { subst w'. unfold JS.updateParticles. rewrite Hps, Hobj.
      fold t. fold params. fold ps1.
      destruct (JS.advect random t params ps1 (JS.randomCursor w)). reflexivity. }
    rewrite Hw'.
    cbn [JS.simulationObject JS.simulationParams JS.tunnelDimensions JS.wasmLoaded
         JS.wasmModule JS.updateVelocitiesIsFunction JS.randomCursor JS.particles].
    do 6 (split; [reflexivity |]).
    split; [intros [C | C]; congruence |].
    split; [exact Hk |].
    intros ps0 E0 _ Hlp Hlv. assert (ps0 = ps) as -> by congruence.
    destruct (velocityPhase_shape compiled params obj (JS.compiledSelected w) ps Hlv)
      as [Hpos1 Hlen1]. fold ps1 in Hpos1, Hlen1.
    destruct Hslots as (H1 & H2 & _); [congruence | congruence |].
    eexists. split; [reflexivity |]. split; congruence.
  - rewrite (Hskip Hnone).
    do 6 (split; [reflexivity |]). split; [reflexivity |]. split; [lia |].
    intros ps0 E0 Hobj. destruct Hnone; congruence.
Qed.

Lemma tick_writes_only_particles_witness :
  let w := oneParticle (0, 0, 0) (1, 0, 0) 1 "sphere" false in
  exists ps',
    JS.particles (JS.updateParticles (fun _ => 0.5) JS.goEvaluator w) = Some ps'
    /\ length (JS.positions ps') = 3%nat
    /\ length (JS.velocities ps') = 3%nat.
Proof.
  intros w.
  destruct (tick_writes_only_particles (fun _ => 0.5) JS.goEvaluator w)
    as (_ & _ & _ & _ & _ & _ & _ & _ & H).
  apply (H {| JS.positions := [0; 0; 0]; JS.velocities := [1; 0; 0] |});
    [reflexivity | discriminate | reflexivity | reflexivity].
Defined.

(** X11. A particle whose integrated position stays in the tunnel is
    simply moved there by the position loop, [position + velocity * 0.01],
    and keeps its velocity. *)
Theorem particle_inside_is_advanced
    (random : nat -> R) (t : JS.Tunnel) (params : JS.SimulationParams)
    (ps : JS.Particles) (k i : nat) (x y z : R) :
  length (JS.positions ps) = (JS.particleCount params * 3)%nat ->
  length (JS.velocities ps) = (JS.particleCount params * 3)%nat ->
  (i < JS.particleCount params)%nat ->
  integrate 0.01 (get3 (JS.positions ps) i) (get3 (JS.velocities ps) i) = (x, y, z) ->
  ~ exitsTunnel t (x, y, z) ->
  let ps' := fst (JS.advect random t params ps k) in
  get3 (JS.positions ps') i = (x, y, z)
  /\ get3 (JS.velocities ps') i = get3 (JS.velocities ps) i.
Proof.
  intros Hp Hv Hi Hint Hin ps'.
  destruct (advect_slots random t params ps k Hp Hv) as (_ & _ & Hslot).
  destruct (Hslot i Hi) as [kj Hkj]. fold ps' in Hkj.
  rewrite (advectParticle_kept t _ 0.01 _ _ _ _ x y z Hint Hin) in Hkj.
  split; [exact (f_equal fst Hkj) | exact (f_equal snd Hkj)].
Qed.

Lemma particle_inside_is_advanced_witness :
  let params :=
    {| JS.freeStreamVelocity := 1; JS.particleCount := 1;
       JS.fluidDensity := 1; JS.objectType := "sphere" |} in
  let ps := {| JS.positions := [0; 0; 0]; JS.velocities := [1; 0; 0] |} in
  let ps' := fst (JS.advect (fun _ => 0.5) JS.defaultTunnel params ps 0) in
  get3 (JS.positions ps') 0 = (0 + 1 * 0.01, 0 + 0 * 0.01, 0 + 0 * 0.01)
  /\ get3 (JS.velocities ps') 0 = get3 (JS.velocities ps) 0.
Proof.
  intros params ps ps'.
  apply (particle_inside_is_advanced (fun _ => 0.5) JS.defaultTunnel params ps 0 0).
  - reflexivity.
  - reflexivity.
  - simpl. lia.
  - reflexivity.
  - unfold exitsTunnel, lateralExit. simpl.
    replace (0 + 0 * 0.01) with 0 by lra. rewrite Rabs_R0. lra.
Defined.

(** X12. On the scalar path every pass takes each velocity 5% of the way
    to its target: the distance to the target, component by component,
    shrinks by the factor 0.95, and the positions are not touched. *)
Theorem scalar_pass_contracts_toward_target
    (params : JS.SimulationParams) (ox oy oz : R) (ps : JS.Particles) (i : nat) :
  length (JS.velocities ps) = (JS.particleCount params * 3)%nat ->
  (i < JS.particleCount params)%nat ->
  let ps' := JS.updateVelocitiesJS params (ox, oy, oz) ps in
  let '(tx, ty, tz) :=
    JS.targetVelocity (JS.freeStreamVelocity params) (JS.fluidDensity params)
      (JS.objectType params)
      (getf (JS.positions ps) (i * 3) - ox)
      (getf (JS.positions ps) (i * 3 + 1) - oy)
      (getf (JS.positions ps) (i * 3 + 2) - oz) in
  let '(ux, uy, uz) := get3 (JS.velocities ps) i in
  let '(wx, wy, wz) := get3 (JS.velocities ps') i in
  JS.positions ps' = JS.positions ps
  /\ wx - tx = 0.95 * (ux - tx)
  /\ wy - ty = 0.95 * (uy - ty)
  /\ wz - tz = 0.95 * (uz - tz).
Proof.
  intros Hlen Hi ps'.
  destruct (js_updateVelocitiesJS_slots params ox oy oz ps Hlen) as (Hpos & _ & Hslot).
  specialize (Hslot i Hi). fold ps' in Hslot, Hpos.
  destruct (JS.targetVelocity _ _ _ _ _ _) as [[tx ty] tz].
  destruct (get3 (JS.velocities ps) i) as [[ux uy] uz].
  destruct (get3 (JS.velocities ps') i) as [[wx wy] wz].
  unfold smooth in Hslot. injection Hslot as -> -> ->.
  split; [exact Hpos |]. repeat split; lra.
Qed.

Lemma scalar_pass_contracts_toward_target_witness :
  let params :=
    {| JS.freeStreamVelocity := 1; JS.particleCount := 1;
       JS.fluidDensity := 1; JS.objectType := "sphere" |} in
  let ps := {| JS.positions := [0; 0; 0]; JS.velocities := [1; 0; 0] |} in
  JS.positions (JS.updateVelocitiesJS params (0, 0, 0) ps) = JS.positions ps.
Proof.
  intros params ps.
  pose proof (scalar_pass_contracts_toward_target params 0 0 0 ps 0
                eq_refl ltac:(simpl; lia)) as H.
  cbv zeta in H.
  destruct (JS.targetVelocity _ _ _ _ _ _) as [[tx ty] tz].
  destruct (get3 (JS.velocities ps) 0) as [[ux uy] uz].
  destruct (get3 (JS.velocities (JS.updateVelocitiesJS params (0, 0, 0) ps)) 0)
    as [[wx wy] wz].
  exact (proj1 H).
Defined.

(** ** Seeding the particles *)

Lemma seedBody_spec (random : nat -> R) (i : nat) (pos col : list R) (k : nat) :
  (i * 3 + 3 <= length pos)%nat ->
  (i * 3 + 3 <= length col)%nat ->
  exists pos' col',
    JS.seedBody random i (pos, col, k) = (pos', col', (k + 6)%nat)
    /\ length pos' = length pos
    /\ length col' = length col
    /\ get3 pos' i = (-10 + random k * 20,
                      - 8 / 2 + random (k + 1)%nat * 8,
                      - 8 / 2 + random (k + 2)%nat * 8)
    /\ get3 col' i = (0.1 + random (k + 3)%nat * 0.1,
                      0.3 + random (k + 4)%nat * 0.3,
                      0.7 + random (k + 5)%nat * 0.3)
    /\ forall j, j <> i -> get3 pos' j = get3 pos j /\ get3 col' j = get3 col j.
Proof.
  intros Hp Hc. unfold JS.seedBody. cbn [JS.entryX JS.width JS.height JS.defaultTunnel].
  do 2 eexists. split; [reflexivity |].
  split; [now rewrite !length_insert |].
  split; [now rewrite !length_insert |].
  split; [apply get3_insert3_eq; lia |].
  split; [apply get3_insert3_eq; lia |].
  intros j Hj. rewrite !(get3_insert_ne _ i j) by lia. split; reflexivity.
Qed.

Lemma seed_loop_spec (random : nat -> R) (count k : nat) :
  exists pos col,
    forLoop (JS.seedBody random) 0 count
      (replicate (count * 3) 0, replicate (count * 3) 0, k)
    = (pos, col, (k + 6 * count)%nat)
    /\ length pos = (count * 3)%nat
    /\ length col = (count * 3)%nat
    /\ forall i, (i < count)%nat ->
         exists kj,
           get3 pos i = (-10 + random kj * 20,
                         - 8 / 2 + random (kj + 1)%nat * 8,
                         - 8 / 2 + random (kj + 2)%nat * 8)
           /\ get3 col i = (0.1 + random (kj + 3)%nat * 0.1,
                            0.3 + random (kj + 4)%nat * 0.3,
                            0.7 + random (kj + 5)%nat * 0.3).
Proof.
  set (s0 := (replicate (count * 3) 0, replicate (count * 3) 0, k)).
  destruct (forLoop_slots (list R * list R * nat) (Vec3 * Vec3) nat
              (fun st j => (get3 (fst (fst st)) j, get3 (snd (fst st)) j))
              (JS.seedBody random)
              (fun st => length (fst (fst st)) = (count * 3)%nat
                         /\ length (snd (fst st)) = (count * 3)%nat)
              (fun j kj _ new =>
                 new = ((-10 + random kj * 20,
                         - 8 / 2 + random (kj + 1)%nat * 8,
                         - 8 / 2 + random (kj + 2)%nat * 8),
                        (0.1 + random (kj + 3)%nat * 0.1,
                         0.3 + random (kj + 4)%nat * 0.3,
                         0.7 + random (kj + 5)%nat * 0.3)))
              count) with (n := count) (start := 0%nat) (s := s0)
    as (Hinv & _ & Hstep).
  - intros j [[p c] kk] Hj [Hlp Hlc]; cbn [fst snd] in *.
    destruct (seedBody_spec random j p c kk) as (p' & c' & -> & H1 & H2 & _);
      [lia | lia |]. cbn [fst snd]. split; congruence.
  - intros j m [[p c] kk] Hj [Hlp Hlc] Hne; cbn [fst snd] in *.
    destruct (seedBody_spec random j p c kk) as (p' & c' & -> & _ & _ & _ & _ & Hfr);
      [lia | lia |]. cbn [fst snd]. destruct (Hfr m Hne) as [-> ->]. reflexivity.
  - intros j [[p c] kk] Hj [Hlp Hlc]; cbn [fst snd] in *.
    destruct (seedBody_spec random j p c kk) as (p' & c' & -> & _ & _ & E1 & E2 & _);
      [lia | lia |]. cbn [fst snd]. exists kk. now rewrite E1, E2.
  - lia.
  - subst s0. cbn [fst snd]. rewrite !length_replicate. split; reflexivity.
  - pose proof (forLoop_invariant
                  (fun i (st : list R * list R * nat) => snd st = (k + 6 * i)%nat)
                  (JS.seedBody random) count 0 s0) as Hk.
    destruct (forLoop (JS.seedBody random) 0 count s0) as [[pos col] k'].
    cbn [fst snd] in *.
    assert (Ek : k' = (k + 6 * count)%nat).
    { apply Hk.
      - subst s0. cbn [snd]. lia.
      - intros i [[p c] kk] Hi Hkk. cbn [snd] in Hkk. subst kk.
        unfold JS.seedBody. cbn [snd]. lia. }
    exists pos, col. rewrite Ek. split; [reflexivity |].
    destruct Hinv as [H1 H2]. split; [exact H1 |]. split; [exact H2 |].
    intros i Hi. destruct (Hstep i) as [kj H]; [lia |].
    exists kj. split; [exact (f_equal fst H) | exact (f_equal snd H)].
Qed.

Lemma free_stream_fill_spec (U : R) (count : nat) :
  let v :=
    forLoop
      (fun i velocities =>
         let velocities := <[(i * 3)%nat := U]> velocities in
         let velocities := <[(i * 3 + 1)%nat := 0]> velocities in
         <[(i * 3 + 2)%nat := 0]> velocities)
      0 count (replicate (count * 3) 0) in
  length v = (count * 3)%nat
  /\ forall i, (i < count)%nat -> get3 v i = (U, 0, 0).
Proof.
  intros v. subst v.
  match goal with |- length (forLoop ?b 0 count ?s0) = _ /\ _ =>
    destruct (forLoop_slots (list R) Vec3 unit get3 b
                (fun r => length r = (count * 3)%nat)
                (fun _ _ _ new => new = (U, 0, 0))
                count) with (n := count) (start := 0%nat) (s := s0)
      as (Hinv & _ & Hstep)
  end.
  - intros j r Hj Hlen. now rewrite !length_insert.
  - intros j m r Hj Hlen Hne. rewrite !(get3_insert_ne _ j m) by lia. reflexivity.
  - intros j r Hj Hlen. exists tt. apply get3_insert3_eq. lia.
  - lia.
  - apply length_replicate.
  - split; [exact Hinv |]. intros i Hi. destruct (Hstep i) as [_ H]; [lia | exact H].
Qed.

Lemma initializeParticles_spec (random : nat -> R) (w : JS.World) :
  let count := JS.particleCount (JS.simulationParams w) in
  exists ps colors,
    JS.initializeParticles random w
    = ({| JS.particles := Some ps;
          JS.simulationObject := JS.simulationObject w;
          JS.simulationParams := JS.simulationParams w;
          JS.tunnelDimensions :=
            Some (default JS.defaultTunnel (JS.tunnelDimensions w));
          JS.wasmLoaded := JS.wasmLoaded w;
          JS.wasmModule := JS.wasmModule w;
          JS.updateVelocitiesIsFunction := JS.updateVelocitiesIsFunction w;
          JS.randomCursor := (JS.randomCursor w + 6 * count)%nat |}, colors)
    /\ length (JS.positions ps) = (count * 3)%nat
    /\ length (JS.velocities ps) = (count * 3)%nat
    /\ length colors = (count * 3)%nat
    /\ forall i, (i < count)%nat ->
         get3 (JS.velocities ps) i = (JS.freeStreamVelocity (JS.simulationParams w), 0, 0)
         /\ exists kj,
              get3 (JS.positions ps) i
              = (-10 + random kj * 20,
                 - 8 / 2 + random (kj + 1)%nat * 8,
                 - 8 / 2 + random (kj + 2)%nat * 8)
              /\ get3 colors i
                 = (0.1 + random (kj + 3)%nat * 0.1,
                    0.3 + random (kj + 4)%nat * 0.3,
                    0.7 + random (kj + 5)%nat * 0.3).
Proof.
  intros count. unfold JS.initializeParticles. fold count.
  destruct (seed_loop_spec random count (JS.randomCursor w))
    as (pos & col & -> & Hlp & Hlc & Hseed).
  destruct (free_stream_fill_spec
              (JS.freeStreamVelocity (JS.simulationParams w)) count) as [Hlv Hvel].
  eexists. exists col. split; [reflexivity |].
  cbn [JS.positions JS.velocities].
  split; [exact Hlp |]. split; [exact Hlv |]. split; [exact Hlc |].
  intros i Hi. split; [now apply Hvel | now apply Hseed].
Qed.

(** X13. [initializeParticles] allocates exactly three entries per
    particle in the position, velocity and colour arrays, draws exactly six
    random numbers per particle, stores the standard tunnel unless one is
    stored already, gives every particle the free-stream velocity
    (U,0,0), places it at -10 <= x < 10, -4 <= y < 4, -4 <= z < 4, and
    gives it a colour with 0.1 <= red < 0.2, 0.3 <= green < 0.6 and
    0.7 <= blue < 1. *)
Theorem initializeParticles_fills_the_tunnel (random : nat -> R) (w : JS.World) :
  (forall n, 0 <= random n < 1) ->
  let count := JS.particleCount (JS.simulationParams w) in
  let w' := fst (JS.initializeParticles random w) in
  let colors := snd (JS.initializeParticles random w) in
  JS.randomCursor w' = (JS.randomCursor w + 6 * count)%nat
  /\ JS.tunnelDimensions w' = Some (default JS.defaultTunnel (JS.tunnelDimensions w))
  /\ JS.simulationParams w' = JS.simulationParams w
  /\ length colors = (count * 3)%nat
  /\ exists ps,
       JS.particles w' = Some ps
       /\ length (JS.positions ps) = (count * 3)%nat
       /\ length (JS.velocities ps) = (count * 3)%nat
       /\ forall i, (i < count)%nat ->
            get3 (JS.velocities ps) i
            = (JS.freeStreamVelocity (JS.simulationParams w), 0, 0)
            /\ (let '(x, y, z) := get3 (JS.positions ps) i in
                -10 <= x < 10 /\ -4 <= y < 4 /\ -4 <= z < 4)
            /\ (let '(r, g, b) := get3 colors i in
                0.1 <= r < 0.2 /\ 0.3 <= g < 0.6 /\ 0.7 <= b < 1).
Proof.
  intros Hrand count w' colors. subst w' colors.
  destruct (initializeParticles_spec random w)
    as (ps & col & -> & Hlp & Hlv & Hlc & Hall).
  fold count in Hlp, Hlv, Hlc, Hall. cbn [fst snd JS.randomCursor JS.tunnelDimensions
    JS.simulationParams JS.particles].
  do 3 (split; [reflexivity |]). split; [exact Hlc |].
  exists ps. split; [reflexivity |]. split; [exact Hlp |]. split; [exact Hlv |].
  intros i Hi. destruct (Hall i Hi) as (Hv & kj & -> & ->).
  split; [exact Hv |].
  pose proof (Hrand kj). pose proof (Hrand (kj + 1)%nat). pose proof (Hrand (kj + 2)%nat).
  pose proof (Hrand (kj + 3)%nat). pose proof (Hrand (kj + 4)%nat).
  pose proof (Hrand (kj + 5)%nat).
  split; repeat split; lra.
Qed.

Lemma initializeParticles_fills_the_tunnel_witness :
  let w := oneParticle (0, 0, 0) (0, 0, 0) 1 "sphere" false in
  JS.randomCursor (fst (JS.initializeParticles (fun _ => 0.5) w)) = 6%nat.
Proof.
  intros w.
  destruct (initializeParticles_fills_the_tunnel (fun _ => 0.5) w) as (H & _).
  - intros _. lra.
  - exact H.
Defined.

(** ** The page under its events *)

Lemma updateParticles_unfold (random : nat -> R) (compiled : JS.CompiledCall)
    (w : JS.World) (ps : JS.Particles) (obj : Vec3) :
  JS.particles w = Some ps ->
  JS.simulationObject w = Some obj ->
  let adv :=
    JS.advect random (default JS.defaultTunnel (JS.tunnelDimensions w))
      (JS.simulationParams w)
      (JS.velocityPhase compiled (JS.simulationParams w) obj (JS.compiledSelected w) ps)
      (JS.randomCursor w) in
  JS.updateParticles random compiled w
  = {| JS.particles := Some (fst adv);
       JS.simulationObject := JS.simulationObject w;
       JS.simulationParams := JS.simulationParams w;
       JS.tunnelDimensions := JS.tunnelDimensions w;
       JS.wasmLoaded := JS.wasmLoaded w;
       JS.wasmModule := JS.wasmModule w;
       JS.updateVelocitiesIsFunction := JS.updateVelocitiesIsFunction w;
       JS.randomCursor := snd adv |}.
Proof.
  intros Hps Hobj adv. subst adv. unfold JS.updateParticles. rewrite Hps, Hobj.
  destruct (JS.advect _ _ _ _ _). reflexivity.
Qed.

Lemma tick_keeps_particlesInTunnel (random : nat -> R) (compiled : JS.CompiledCall)
    (w : JS.World) (ps : JS.Particles) (obj : Vec3) :
  (forall n, 0 <= random n < 1) ->
  JS.particles w = Some ps ->
  JS.simulationObject w = Some obj ->
  default JS.defaultTunnel (JS.tunnelDimensions w) = JS.defaultTunnel ->
  particlesInTunnel (JS.particleCount (JS.simulationParams w)) ps ->
  exists ps',
    JS.particles (JS.updateParticles random compiled w) = Some ps'
    /\ particlesInTunnel (JS.particleCount (JS.simulationParams w)) ps'.
Proof.
  intros Hrand Hps Hobj Ht (Hlp & Hlv & _).
  destruct (tick_keeps_positions_bounded random compiled w ps obj Hrand Hps Hobj Hlp Hlv)
    as (ps' & Hps' & Hb); try (rewrite Ht; simpl; lra).
  exists ps'. split; [exact Hps' |].
  rewrite (updateParticles_particles random compiled w ps obj Hps Hobj) in Hps'.
  injection Hps' as Hps'.
  destruct (velocityPhase_shape compiled (JS.simulationParams w) obj
              (JS.compiledSelected w) ps Hlv) as [Hpos1 Hlen1].
  destruct (advect_slots random (default JS.defaultTunnel (JS.tunnelDimensions w))
              (JS.simulationParams w)
              (JS.velocityPhase compiled (JS.simulationParams w) obj
                 (JS.compiledSelected w) ps)
              (JS.randomCursor w)) as (H1 & H2 & _); [congruence | congruence |].
  rewrite Hps' in H1, H2.
  split; [congruence |]. split; [congruence |].
  intros i Hi. specialize (Hb i Hi). rewrite Ht in Hb. exact Hb.
Qed.

Lemma initializeParticles_in_tunnel (random : nat -> R) (w : JS.World) :
  (forall n, 0 <= random n < 1) ->
  let w' := fst (JS.initializeParticles random w) in
  JS.simulationObject w' = JS.simulationObject w
  /\ JS.simulationParams w' = JS.simulationParams w
  /\ JS.tunnelDimensions w' = Some (default JS.defaultTunnel (JS.tunnelDimensions w))
  /\ exists ps, JS.particles w' = Some ps
                /\ particlesInTunnel (JS.particleCount (JS.simulationParams w)) ps.
Proof.
  intros Hrand w'. subst w'.
  destruct (initializeParticles_spec random w)
    as (ps & col & -> & Hlp & Hlv & _ & Hall).
  cbn [fst JS.simulationObject JS.simulationParams JS.tunnelDimensions JS.particles].
  do 3 (split; [reflexivity |]).
  exists ps. split; [reflexivity |]. split; [exact Hlp |]. split; [exact Hlv |].
  intros i Hi. destruct (Hall i Hi) as (_ & kj & -> & _).
  pose proof (Hrand kj). pose proof (Hrand (kj + 1)%nat). pose proof (Hrand (kj + 2)%nat).
  unfold insideTunnel. simpl. repeat split; try lra; apply Rabs_le; lra.
Qed.

Lemma handle_keeps_invariant (random : nat -> R) (mesh : Vec3)
    (e : JS.Event) (a : JS.App) :
  (forall n, 0 <= random n < 1) ->
  speedInputNonzero e ->
  pageInvariant mesh a -> pageInvariant mesh (JS.handle random mesh e a).
Proof.
  intros Hrand He (Hkind & HU & Hobj & Htun & Hsim & Hps).
  assert (Hinit : forall params,
            In (JS.objectType params) threeKinds ->
            JS.freeStreamVelocity params <> 0 ->
            pageInvariant mesh
              {| JS.world := fst (JS.initializeParticles random
                                    (JS.setParams params (JS.world a)));
                 JS.isSimulating := true |}).
  { intros params Hk Hspeed.
    destruct (initializeParticles_in_tunnel random (JS.setParams params (JS.world a)) Hrand)
      as (E1 & E2 & E3 & ps & E4 & Hgood).
    unfold pageInvariant. cbn [JS.world JS.isSimulating].
    rewrite E1, E2, E3, E4.
    cbn [JS.setParams JS.simulationObject JS.simulationParams JS.tunnelDimensions] in *.
    split; [exact Hk |]. split; [exact Hspeed |].
    split; [exact Hobj |]. split; [simpl; exact Htun |].
    split; [intros _; eexists; reflexivity |].
    intros ps0 E0. injection E0 as <-. eexists. split; [exact Hgood | reflexivity]. }
  assert (Hsame : JS.setParams (JS.simulationParams (JS.world a)) (JS.world a) = JS.world a).
  { destruct (JS.world a). reflexivity. }
  destruct e as [v | n | d | | | | | compiled | l m c]; unfold JS.handle.
  - unfold pageInvariant. cbn [JS.world JS.isSimulating JS.setParams JS.simulationObject
      JS.simulationParams JS.tunnelDimensions JS.particles JS.objectType JS.particleCount
      JS.freeStreamVelocity].
    split; [exact Hkind |]. split; [exact He |]. repeat split; assumption.
  - destruct (JS.isSimulating a) eqn:Erun.
    + apply Hinit; assumption.
    + unfold pageInvariant. cbn [JS.world JS.isSimulating JS.setParams JS.simulationObject
        JS.simulationParams JS.tunnelDimensions JS.particles JS.objectType
        JS.particleCount JS.freeStreamVelocity].
      split; [exact Hkind |]. split; [exact HU |].
      split; [exact Hobj |]. split; [exact Htun |].
      split; [intros C; congruence |].
      intros ps E. destruct (Hps ps E) as (k & Hgood & _).
      exists k. split; [exact Hgood | intros C; congruence].
  - unfold pageInvariant. cbn [JS.world JS.isSimulating JS.setParams JS.simulationObject
      JS.simulationParams JS.tunnelDimensions JS.particles JS.objectType JS.particleCount
      JS.freeStreamVelocity].
    repeat split; assumption.
  - unfold pageInvariant, JS.selectObject.
    cbn [JS.world JS.isSimulating JS.setParams JS.createSimulationObject
      JS.simulationObject JS.simulationParams JS.tunnelDimensions JS.particles
      JS.objectType JS.particleCount JS.freeStreamVelocity].
    split; [simpl; tauto |]. repeat split; assumption.
  - unfold pageInvariant, JS.selectObject.
    cbn [JS.world JS.isSimulating JS.setParams JS.createSimulationObject
      JS.simulationObject JS.simulationParams JS.tunnelDimensions JS.particles
      JS.objectType JS.particleCount JS.freeStreamVelocity].
    split; [simpl; tauto |]. repeat split; assumption.
  - unfold pageInvariant, JS.selectObject.
    cbn [JS.world JS.isSimulating JS.setParams JS.createSimulationObject
      JS.simulationObject JS.simulationParams JS.tunnelDimensions JS.particles
      JS.objectType JS.particleCount JS.freeStreamVelocity].
    split; [simpl; tauto |]. repeat split; assumption.
  - destruct (JS.isSimulating a) eqn:Erun.
    + unfold pageInvariant. cbn [JS.world JS.isSimulating].
      split; [exact Hkind |]. split; [exact HU |].
      split; [exact Hobj |]. split; [exact Htun |].
      split; [intros C; discriminate C |].
      intros ps E. destruct (Hps ps E) as (k & Hgood & _).
      exists k. split; [exact Hgood | intros C; discriminate C].
    + rewrite <- Hsame. apply Hinit; assumption.
  - destruct (JS.isSimulating a && bool_decide (is_Some (JS.particles (JS.world a))))
      eqn:Erun.
    + apply andb_true_iff in Erun. destruct Erun as [Erun Esome].
      apply bool_decide_eq_true_1 in Esome. destruct Esome as [ps Eps].
      destruct (Hps ps Eps) as (k & Hgood & Hk). rewrite (Hk Erun) in Hgood.
      destruct (tick_keeps_particlesInTunnel random compiled (JS.world a) ps mesh
                  Hrand Eps Hobj Htun Hgood) as (ps' & Eps' & Hgood').
      rewrite (updateParticles_unfold random compiled (JS.world a) ps mesh Eps Hobj)
        in Eps' |- *.
      unfold pageInvariant. cbn [JS.world JS.isSimulating JS.simulationObject
        JS.simulationParams JS.tunnelDimensions JS.particles] in *.
      split; [exact Hkind |]. split; [exact HU |].
      split; [exact Hobj |]. split; [exact Htun |].
      split; [intros _; eexists; reflexivity |].
      intros ps0 E0. rewrite E0 in Eps'. injection Eps' as ->.
      eexists. split; [exact Hgood' | reflexivity].
    + unfold pageInvariant. cbn [JS.world JS.isSimulating].
      repeat split; assumption.
  - unfold pageInvariant. cbn [JS.world JS.isSimulating JS.simulationObject
      JS.simulationParams JS.tunnelDimensions JS.particles].
    repeat split; assumption.
Qed.

Lemma startApp_invariant (mesh : Vec3) : pageInvariant mesh (JS.startApp mesh).
Proof.
  unfold pageInvariant, JS.startApp.
  cbn [JS.world JS.isSimulating JS.createSimulationObject JS.simulationObject
    JS.simulationParams JS.tunnelDimensions JS.particles JS.objectType
    JS.freeStreamVelocity].
  split; [simpl; tauto |]. split; [lra |]. split; [reflexivity |].
  split; [reflexivity |].
  split; [intros C; discriminate C | intros ps C; discriminate C].
Qed.

Lemma runEvents_keeps_invariant (random : nat -> R) (mesh : Vec3)
    (events : list JS.Event) (a : JS.App) :
  (forall n, 0 <= random n < 1) ->
  Forall speedInputNonzero events ->
  pageInvariant mesh a -> pageInvariant mesh (JS.runEvents random mesh events a).
Proof.
  intros Hrand Hev. revert a. unfold JS.runEvents.
  induction Hev as [| e events He Hev IH]; intros a Ha; simpl.
  - exact Ha.
  - apply IH. now apply handle_keeps_invariant.
Qed.

(** X14. As long as the velocity input is never set to zero (the airfoil
    z term divides by the free-stream speed), whatever else the user does
    with the controls, whenever the compiled module finishes loading and
    whatever the compiled evaluator does in a frame, the page started by
    [DOMContentLoaded] always has one of the three obstacle kinds
    selected, a non-zero free-stream speed, the obstacle where the
    library put it when it was created (the page never moves it) and the
    standard tunnel in force; and while the simulation is running the
    particle arrays exist, hold exactly three entries per particle of the
    current particle count, and every particle satisfies x <= 10,
    |y| <= 4 and |z| <= 4. *)
Theorem running_page_is_well_formed (random : nat -> R) (mesh : Vec3)
    (events : list JS.Event) :
  (forall n, 0 <= random n < 1) ->
  Forall speedInputNonzero events ->
  let a := JS.runEvents random mesh events (JS.startApp mesh) in
  let w := JS.world a in
  let count := JS.particleCount (JS.simulationParams w) in
  In (JS.objectType (JS.simulationParams w)) threeKinds
  /\ JS.freeStreamVelocity (JS.simulationParams w) <> 0
  /\ JS.simulationObject w = Some mesh
  /\ default JS.defaultTunnel (JS.tunnelDimensions w) = JS.defaultTunnel
  /\ (JS.isSimulating a = true ->
      exists ps,
        JS.particles w = Some ps
        /\ length (JS.positions ps) = (count * 3)%nat
        /\ length (JS.velocities ps) = (count * 3)%nat
        /\ forall i, (i < count)%nat ->
             getf (JS.positions ps) (i * 3) <= 10
             /\ Rabs (getf (JS.positions ps) (i * 3 + 1)) <= 4
             /\ Rabs (getf (JS.positions ps) (i * 3 + 2)) <= 4).
Proof.
  intros Hrand Hev a w count.
  destruct (runEvents_keeps_invariant random mesh events (JS.startApp mesh)
              Hrand Hev (startApp_invariant mesh))
    as (Hkind & HU & Hobj & Htun & Hsim & Hps).
  fold a in Hkind, HU, Hobj, Htun, Hsim, Hps.
  fold w in Hkind, HU, Hobj, Htun, Hsim, Hps.
  split; [exact Hkind |]. split; [exact HU |].
  split; [exact Hobj |]. split; [exact Htun |].
  intros Erun. destruct (Hsim Erun) as [ps Eps].
  destruct (Hps ps Eps) as (n & (Hlp & Hlv & Hin) & Hn).
  rewrite (Hn Erun) in Hlp, Hlv, Hin. fold count in Hlp, Hlv, Hin.
  exists ps. split; [exact Eps |]. split; [exact Hlp |]. split; [exact Hlv |].
  intros i Hi. specialize (Hin i Hi). unfold insideTunnel, get3 in Hin. simpl in Hin.
  destruct Hin as (H1 & H2 & H3). repeat split; lra.
Qed.

Lemma running_page_is_well_formed_witness :
  let a :=
    JS.runEvents (fun _ => 0.5) (0, 0, 0)
      [JS.ParticlesInput 2; JS.VelocityInput 2; JS.CylinderClick; JS.ToggleClick;
       JS.Frame JS.goEvaluator]
      (JS.startApp (0, 0, 0)) in
  JS.freeStreamVelocity (JS.simulationParams (JS.world a)) <> 0
  /\ JS.simulationObject (JS.world a) = Some (0, 0, 0).
Proof.
  intros a.
  destruct (running_page_is_well_formed (fun _ => 0.5) (0, 0, 0)
              [JS.ParticlesInput 2; JS.VelocityInput 2; JS.CylinderClick;
               JS.ToggleClick; JS.Frame JS.goEvaluator]) as (_ & HU & H & _).
  - intros _. lra.
  - repeat constructor. simpl. lra.
  - split; [exact HU | exact H].
Defined.

(** ** Particles do not travel upstream in a non-reversed stream *)

Lemma js_vx_nonneg (U rho : R) (t : string) (x y z : R) :
  0 <= U -> 0 <= fst (fst (JS.targetVelocity U rho t x y z)).
Proof.
  intros HU. destruct (in_dec string_dec t threeKinds) as [Hin | Hn].
  - rewrite <- (go_js_pointwise U rho t x y z Hin).
    apply (go_vx_bounds U rho (JS.kindCode t) 1 x y z); lra.
  - destruct (not_three_kinds t Hn) as (E1 & E2 & E3).
    unfold JS.targetVelocity. rewrite E1, E2, E3.
    destruct (decide (sqrt (x * x + y * y + z * z) > 1)); cbn [fst]; lra.
Qed.

Lemma velocityPhase_keeps_downstream (compiled : JS.CompiledCall)
    (params : JS.SimulationParams) (obj : Vec3) (selected : bool)
    (ps : JS.Particles) :
  compiledIsGo compiled ->
  0 <= JS.freeStreamVelocity params ->
  length (JS.velocities ps) = (JS.particleCount params * 3)%nat ->
  (forall i, (i < JS.particleCount params)%nat -> 0 <= getf (JS.velocities ps) (i * 3)) ->
  forall i, (i < JS.particleCount params)%nat ->
    0 <= getf (JS.velocities (JS.velocityPhase compiled params obj selected ps)) (i * 3).
Proof.
  intros Hgo HU Hlen Hpos i Hi. destruct obj as [[ox oy] oz].
  assert (Hscalar :
    0 <= getf (JS.velocities (JS.updateVelocitiesJS params (ox, oy, oz) ps)) (i * 3)).
  { destruct (js_updateVelocitiesJS_slots params ox oy oz ps Hlen) as (_ & _ & Hslot).
    pose proof (f_equal (fun v => fst (fst v)) (Hslot i Hi)) as E. cbv beta in E.
    unfold get3 at 1 in E. cbn [fst] in E. rewrite E.
    pose proof (js_vx_nonneg (JS.freeStreamVelocity params) (JS.fluidDensity params)
                  (JS.objectType params)
                  (getf (JS.positions ps) (i * 3) - ox)
                  (getf (JS.positions ps) (i * 3 + 1) - oy)
                  (getf (JS.positions ps) (i * 3 + 2) - oz) HU) as Ht.
    destruct (JS.targetVelocity _ _ _ _ _ _) as [[tx ty] tz].
    unfold smooth, get3. cbn [fst] in *. specialize (Hpos i Hi). lra. }
  unfold JS.velocityPhase. destruct selected; [| exact Hscalar].
  destruct (compiled _ _ _ _ _ _ _ _ _) as [res |] eqn:Eres; [| exact Hscalar].
  apply Hgo in Eres. subst res.
  destruct (js_copyVelocities_slots (JS.particleCount params)
              (Go.updateVelocities (JS.positions ps) (JS.particleCount params)
                 (JS.freeStreamVelocity params) (JS.fluidDensity params) ox oy oz
                 (JS.kindCode (JS.objectType params)) 1) ps Hlen) as (_ & _ & Hslot).
  pose proof (f_equal (fun v => fst (fst v)) (Hslot i Hi)) as E. cbv beta in E.
  unfold get3 at 1 in E. cbn [fst] in E. rewrite E.
  rewrite go_updateVelocities_slots by assumption.
  apply go_vx_bounds; [lra | assumption].
Qed.

Lemma advectParticle_keeps_downstream (t : JS.Tunnel) (U u1 u2 : R)
    (p v p' v' : Vec3) :
  0 <= U ->
  JS.entryX t <= fst (fst p) -> 0 <= fst (fst v) ->
  advectParticle t U 0.01 u1 u2 (p, v) = (p', v') ->
  JS.entryX t <= fst (fst p') /\ 0 <= fst (fst v').
Proof.
  intros HU Hp Hv. destruct p as [[px py] pz], v as [[vx vy] vz].
  cbn [fst] in Hp, Hv. unfold advectParticle, integrate.
  destruct (decide (px + vx * 0.01 > JS.exitX t));
    destruct (decide (Rabs (py + vy * 0.01) > JS.width t / 2));
    destruct (decide (Rabs (pz + vz * 0.01) > JS.height t / 2));
    intros E; injection E as <- <-; cbn [fst]; lra.
Qed.

(** X15. In a non-reversed stream (U >= 0) with the Go kernel as compiled
    evaluator (or none), particles never travel upstream: if before a tick
    every particle has x >= entryX and a non-negative x velocity, the same
    holds after the tick, on the compiled path as on the scalar one. *)
Theorem tick_keeps_particles_downstream
    (random : nat -> R) (compiled : JS.CompiledCall) (w : JS.World)
    (ps : JS.Particles) (obj : Vec3) :
  compiledIsGo compiled ->
  0 <= JS.freeStreamVelocity (JS.simulationParams w) ->
  JS.particles w = Some ps ->
  JS.simulationObject w = Some obj ->
  length (JS.positions ps) = (JS.particleCount (JS.simulationParams w) * 3)%nat ->
  length (JS.velocities ps) = (JS.particleCount (JS.simulationParams w) * 3)%nat ->
  let t := default JS.defaultTunnel (JS.tunnelDimensions w) in
  movingDownstream t (JS.particleCount (JS.simulationParams w)) ps ->
  exists ps',
    JS.particles (JS.updateParticles random compiled w) = Some ps'
    /\ movingDownstream t (JS.particleCount (JS.simulationParams w)) ps'.
Proof.
  intros Hgo HU Hps Hobj Hlp Hlv t Hdown.
  eexists. split; [exact (updateParticles_particles random compiled w ps obj Hps Hobj) |].
  set (params := JS.simulationParams w) in *.
  set (ps1 := JS.velocityPhase compiled params obj (JS.compiledSelected w) ps).
  destruct (velocityPhase_shape compiled params obj (JS.compiledSelected w) ps Hlv)
    as [Hpos1 Hlen1]. fold ps1 in Hpos1, Hlen1.
  fold t.
  destruct (advect_slots random t params ps1 (JS.randomCursor w)) as (_ & _ & Hslot);
    [congruence | congruence |].
  intros i Hi. destruct (Hslot i Hi) as [kj Hkj].
  apply (advectParticle_keeps_downstream t (JS.freeStreamVelocity params)
           (random kj) (random (S kj))
           (get3 (JS.positions ps1) i) (get3 (JS.velocities ps1) i)
           (get3 (JS.positions (fst (JS.advect random t params ps1 (JS.randomCursor w)))) i)
           (get3 (JS.velocities (fst (JS.advect random t params ps1 (JS.randomCursor w)))) i)).
  - exact HU.
  - rewrite Hpos1. exact (proj1 (Hdown i Hi)).
  - apply (velocityPhase_keeps_downstream compiled params obj (JS.compiledSelected w) ps
             Hgo HU Hlv); [| exact Hi].
    intros j Hj. exact (proj2 (Hdown j Hj)).
  - symmetry. exact Hkj.
Qed.

Lemma tick_keeps_particles_downstream_witness :
  let w := oneParticle (-10, 0, 0) (1, 0, 0) 1 "sphere" true in
  exists ps',
    JS.particles (JS.updateParticles (fun _ => 0.5) JS.goEvaluator w) = Some ps'
    /\ movingDownstream JS.defaultTunnel 1 ps'.
Proof.
  intros w.
  apply (tick_keeps_particles_downstream (fun _ => 0.5) JS.goEvaluator w
           {| JS.positions := [-10; 0; 0]; JS.velocities := [1; 0; 0] |} (0, 0, 0)).
  - intros p c U rho ox oy oz k r res E. injection E as <-. reflexivity.
  - simpl. lra.
  - reflexivity.
  - reflexivity.
  - reflexivity.
  - reflexivity.
  - intros i Hi. assert (i = 0%nat) as -> by (simpl in Hi; lia).
    unfold getf. simpl. lra.
Defined.

(** ** The tick of the copy of [main.js] without the wind tunnel *)

Lemma legacy_velocityPhase_shape (compiled : JS.CompiledCall)
    (params : JS.SimulationParams) (obj : Vec3) (selected : bool)
    (ps : JS.Particles) :
  length (JS.velocities ps) = (JS.particleCount params * 3)%nat ->
  let ps' := Legacy.velocityPhase compiled params obj selected ps in
  JS.positions ps' = JS.positions ps
  /\ length (JS.velocities ps') = length (JS.velocities ps).
Proof.
  intros Hv. destruct obj as [[ox oy] oz].
  assert (Hscalar :
    let ps' := Legacy.updateVelocitiesJS params (ox, oy, oz) ps in
    JS.positions ps' = JS.positions ps
    /\ length (JS.velocities ps') = length (JS.velocities ps)).
  { unfold Legacy.updateVelocitiesJS. cbn [JS.positions JS.velocities].
    split; [reflexivity |].
    match goal with |- length (forLoop ?b 0 ?n ?s0) = _ =>
      pose proof (forLoop_invariant (fun _ v => length v = length s0) b n 0 s0) as H
    end.
    apply H; [reflexivity |].
    intros i v _ Hl. destruct (Legacy.targetVelocity _ _ _ _ _) as [[vx vy] vz].
    now rewrite !length_insert. }
  unfold Legacy.velocityPhase. destruct selected; [| exact Hscalar].
  destruct (compiled _ _ _ _ _ _ _ _ _) as [res |]; [| exact Hscalar].
  destruct (js_copyVelocities_slots (JS.particleCount params) res ps Hv)
    as (H1 & H2 & _). split; assumption.
Qed.

Lemma legacy_advectBody_spec (random : nat -> R) (dt : R)
    (i : nat) (pos vel : list R) (k : nat) :
  (i * 3 + 3 <= length pos)%nat ->
  exists pos' k',
    Legacy.advectBody random dt i (pos, vel, k) = (pos', vel, k')
    /\ length pos' = length pos
    /\ (forall j, j <> i -> get3 pos' j = get3 pos j)
    /\ let '(x, y, z) := integrate dt (get3 pos i) (get3 vel i) in
       (x > 10 ->
        get3 pos' i = (-10, (random k - 0.5) * 8, (random (S k) - 0.5) * 8))
       /\ (~ x > 10 -> get3 pos' i = (x, y, z)).
Proof.
  intros Hp. unfold Legacy.advectBody.
  set (idx := (i * 3)%nat).
  set (p1 := <[idx := getf pos idx + getf vel idx * dt]> pos).
  set (p2 := <[(idx + 1)%nat := getf p1 (idx + 1) + getf vel (idx + 1) * dt]> p1).
  set (p3 := <[(idx + 2)%nat := getf p2 (idx + 2) + getf vel (idx + 2) * dt]> p2).
  assert (H3 : get3 p3 i = integrate dt (get3 pos i) (get3 vel i)).
  { unfold integrate, get3. fold idx. f_equal; [f_equal |].
    - subst p3 p2 p1. rewrite !getf_insert_ne by lia. apply getf_insert_eq. lia.
    - subst p3 p2. rewrite getf_insert_ne by lia.
      rewrite getf_insert_eq by (subst p1; rewrite length_insert; lia).
      subst p1. now rewrite getf_insert_ne by lia.
    - subst p3. rewrite getf_insert_eq by (subst p2 p1; rewrite !length_insert; lia).
      subst p2 p1. now rewrite !getf_insert_ne by lia. }
  assert (Hl3 : length p3 = length pos).
  { subst p3 p2 p1. now rewrite !length_insert. }
  assert (Hf3 : forall j, j <> i -> get3 p3 j = get3 pos j).
  { intros j Hj. subst p3 p2 p1. rewrite !(get3_insert_ne _ i j) by lia. reflexivity. }
  assert (Hx : getf p3 idx = fst (fst (get3 p3 i))) by reflexivity.
  rewrite Hx, H3.
  destruct (integrate dt (get3 pos i) (get3 vel i)) as [[x y] z] eqn:E. cbn [fst].
  destruct (decide (x > 10)) as [Hout | Hin].
  - do 2 eexists. split; [reflexivity |].
    split; [now rewrite !length_insert |].
    split; [intros j Hj; rewrite !(get3_insert_ne _ i j) by lia; now apply Hf3 |].
    split; [intros _ | intros C; contradiction].
    apply (get3_insert3_eq p3 i). lia.
  - do 2 eexists. split; [reflexivity |].
    split; [exact Hl3 |]. split; [exact Hf3 |].
    split; [intros C; contradiction | intros _; exact H3].
Qed.

Lemma legacy_advect_loop_spec (random : nat -> R) (count : nat)
    (pos vel : list R) (k : nat) :
  length pos = (count * 3)%nat ->
  exists pos' k',
    forLoop (Legacy.advectBody random 0.01) 0 count (pos, vel, k) = (pos', vel, k')
    /\ forall i, (i < count)%nat ->
         exists kj,
           let '(x, y, z) := integrate 0.01 (get3 pos i) (get3 vel i) in
           (x > 10 ->
            get3 pos' i = (-10, (random kj - 0.5) * 8, (random (S kj) - 0.5) * 8))
           /\ (~ x > 10 -> get3 pos' i = (x, y, z)).
Proof.
  intros Hlen.
  destruct (forLoop_slots (list R * list R * nat) Vec3 nat
              (fun st j => get3 (fst (fst st)) j)
              (Legacy.advectBody random 0.01)
              (fun st => length (fst (fst st)) = (count * 3)%nat /\ snd (fst st) = vel)
              (fun j kj old new =>
                 let '(x, y, z) := integrate 0.01 old (get3 vel j) in
                 (x > 10 ->
                  new = (-10, (random kj - 0.5) * 8, (random (S kj) - 0.5) * 8))
                 /\ (~ x > 10 -> new = (x, y, z)))
              count) with (n := count) (start := 0%nat) (s := (pos, vel, k))
    as (Hinv & _ & Hstep).
  - intros j [[p v] c] Hj [Hlp Hv]; cbn [fst snd] in *. subst v.
    destruct (legacy_advectBody_spec random 0.01 j p vel c)
      as (p' & c' & -> & Hl & _); [lia |]. cbn [fst snd]. split; congruence.
  - intros j m [[p v] c] Hj [Hlp Hv] Hne; cbn [fst snd] in *. subst v.
    destruct (legacy_advectBody_spec random 0.01 j p vel c)
      as (p' & c' & -> & _ & Hfr & _); [lia |]. cbn [fst snd]. now apply Hfr.
  - intros j [[p v] c] Hj [Hlp Hv]; cbn [fst snd] in *. subst v.
    destruct (legacy_advectBody_spec random 0.01 j p vel c)
      as (p' & c' & -> & _ & _ & Hst); [lia |]. cbn [fst snd]. exists c. exact Hst.
  - lia.
  - cbn [fst snd]. split; [exact Hlen | reflexivity].
  - destruct (forLoop _ _ _ _) as [[pos' vel'] k']. cbn [fst snd] in *.
    destruct Hinv as [_ ->]. exists pos', k'. split; [reflexivity |].
    intros i Hi. apply Hstep. lia.
Qed.

(** X16. The tick of the copy of [main.js] without the wind tunnel
    recycles on the exit plane only: after it every particle has x <= 10;
    a particle that passed x = 10 is put at x = -10 with fresh |y| <= 4
    and |z| <= 4, any other particle is at its integrated position,
    however far to the side; and the position loop never writes the
    velocities, so a recycled particle keeps the velocity it had. *)
Theorem older_tick_recycles_at_exit_only
    (random : nat -> R) (compiled : JS.CompiledCall) (w : JS.World)
    (ps : JS.Particles) (obj : Vec3) :
  (forall n, 0 <= random n < 1) ->
  JS.particles w = Some ps ->
  JS.simulationObject w = Some obj ->
  length (JS.positions ps) = (JS.particleCount (JS.simulationParams w) * 3)%nat ->
  length (JS.velocities ps) = (JS.particleCount (JS.simulationParams w) * 3)%nat ->
  let ps1 :=
    Legacy.velocityPhase compiled (JS.simulationParams w) obj (JS.compiledSelected w) ps in
  exists ps',
    JS.particles (Legacy.updateParticles random compiled w) = Some ps'
    /\ JS.velocities ps' = JS.velocities ps1
    /\ forall i, (i < JS.particleCount (JS.simulationParams w))%nat ->
         let '(x, y, z) :=
           integrate 0.01 (get3 (JS.positions ps) i) (get3 (JS.velocities ps1) i) in
         let '(x', y', z') := get3 (JS.positions ps') i in
         x' <= 10
         /\ (x > 10 -> x' = -10 /\ Rabs y' <= 4 /\ Rabs z' <= 4)
         /\ (~ x > 10 -> (x', y', z') = (x, y, z)).
Proof.
  intros Hrand Hps Hobj Hlp Hlv ps1.
  destruct (legacy_velocityPhase_shape compiled (JS.simulationParams w) obj
              (JS.compiledSelected w) ps Hlv) as [Hpos1 _]. fold ps1 in Hpos1.
  destruct (legacy_advect_loop_spec random (JS.particleCount (JS.simulationParams w))
              (JS.positions ps1) (JS.velocities ps1) (JS.randomCursor w))
    as (pos' & k' & Eloop & Hslot); [congruence |].
  exists {| JS.positions := pos'; JS.velocities := JS.velocities ps1 |}.
  split.
  { unfold Legacy.updateParticles. rewrite Hps, Hobj. fold ps1. now rewrite Eloop. }
  split; [reflexivity |].
  intros i Hi. destruct (Hslot i Hi) as [kj Hkj]. rewrite Hpos1 in Hkj.
  cbn [JS.positions].
  destruct (integrate 0.01 (get3 (JS.positions ps) i) (get3 (JS.velocities ps1) i))
    as [[x y] z].
  destruct Hkj as [Hout Hin].
  destruct (decide (x > 10)) as [Ex | Ex].
  - rewrite (Hout Ex).
    pose proof (Hrand kj). pose proof (Hrand (S kj)).
    split; [lra |]. split; [| intros C; contradiction].
    intros _. split; [reflexivity |]. split; apply Rabs_le; lra.
  - rewrite (Hin Ex). split; [lra |]. split; [intros C; contradiction |].
    intros _. reflexivity.
Qed.

Lemma older_tick_recycles_at_exit_only_witness :
  let w := oneParticle (10, 0, 0) (1, 0, 0) 1 "sphere" false in
  exists ps',
    JS.particles (Legacy.updateParticles (fun _ => 0.5) JS.goEvaluator w) = Some ps'
    /\ JS.velocities ps'
       = JS.velocities
           (Legacy.velocityPhase JS.goEvaluator (JS.simulationParams w) (0, 0, 0)
              (JS.compiledSelected w)
              {| JS.positions := [10; 0; 0]; JS.velocities := [1; 0; 0] |}).
Proof.
  intros w.
  destruct (older_tick_recycles_at_exit_only (fun _ => 0.5) JS.goEvaluator w
              {| JS.positions := [10; 0; 0]; JS.velocities := [1; 0; 0] |} (0, 0, 0))
    as (ps' & H1 & H2 & _).
  - intros _. lra.
  - reflexivity.
  - reflexivity.
  - reflexivity.
  - reflexivity.
  - exists ps'. split; [exact H1 | exact H2].
Defined.

(** ** The colours of a field slice *)

Lemma first_pass_spec (val : nat -> R) (n : nat) :
  (0 < n)%nat ->
  exists m M values,
    forLoop
      (fun i (st : option R * option R * list R) =>
         let '(minValue, maxValue, values) := st in
         let value := val i in
         (Some (FieldView.minWith minValue value), Some (FieldView.maxWith maxValue value),
          <[i := value]> values))
      0 n (None, None, replicate n 0)
    = (Some m, Some M, values)
    /\ forall j, (j < n)%nat -> getf values j = val j /\ m <= val j <= M.
Proof.
  intros Hn.
  match goal with |- exists m M values, forLoop ?b 0 n ?s0 = _ /\ _ =>
    pose proof (forLoop_invariant
      (fun i (st : option R * option R * list R) =>
         length (snd st) = n
         /\ ((i = 0)%nat -> fst (fst st) = None /\ snd (fst st) = None)
         /\ ((0 < i)%nat ->
             exists m M, fst (fst st) = Some m /\ snd (fst st) = Some M
                         /\ forall j, (j < i)%nat ->
                              getf (snd st) j = val j /\ m <= val j <= M))
      b n 0 s0) as H
  end.
  destruct H as (Hlen & _ & Hpos).
  - cbn [fst snd]. split; [apply length_replicate |].
    split; [intros _; split; reflexivity | intros C; lia].
  - intros i [[mn mx] values] Hi (Hlen & H0 & Hpos). cbn [fst snd] in *.
    split; [now rewrite length_insert |]. split; [intros C; lia |]. intros _.
    do 2 eexists. split; [reflexivity |]. split; [reflexivity |].
    intros j Hj. destruct (Nat.eq_dec j i) as [-> | Hne].
    + rewrite getf_insert_eq by lia. split; [reflexivity |].
      unfold FieldView.minWith, FieldView.maxWith.
      destruct mn, mx; split;
        try apply Rmin_r; try apply Rmax_r; try apply Rle_refl.
    + rewrite getf_insert_ne by lia.
      destruct Hpos as (m & M & -> & -> & Hall); [lia |].
      destruct (Hall j) as (E & B1 & B2); [lia |].
      split; [exact E |]. unfold FieldView.minWith, FieldView.maxWith. split.
      * apply Rle_trans with m; [apply Rmin_l | exact B1].
      * apply Rle_trans with M; [exact B2 | apply Rmax_l].
  - destruct (forLoop _ _ _ _) as [[mn mx] values]. cbn [fst snd] in *.
    destruct Hpos as (m & M & -> & -> & Hall); [lia |].
    exists m, M, values. split; [reflexivity |]. exact Hall.
Qed.

Lemma velocity_colour_in_range (M v : R) :
  0 < M -> 0 <= v <= M ->
  let '(r, g, b) := FieldView.fieldColor "velocity" 0 (M * 1.2) v in
  0 <= r <= 1 /\ 0 <= g <= 1 /\ 0 <= b <= 1.
Proof.
  intros HM Hv. unfold FieldView.fieldColor. simpl String.eqb. cbv iota.
  set (t := (v - 0) / (M * 1.2 - 0)).
  assert (Ht : 0 <= t <= 1).
  { assert (Hd : 0 < M * 1.2 - 0) by lra.
    assert (E : t * (M * 1.2 - 0) = v - 0).
    { unfold t, Rdiv. rewrite Rmult_assoc, Rinv_l by lra. lra. }
    split.
    - unfold t. apply Rmult_le_pos; [lra |]. left. now apply Rinv_0_lt_compat.
    - apply Rmult_le_reg_r with (M * 1.2 - 0); [exact Hd |]. rewrite E. lra. }
  repeat split; try apply Rmin_l; apply Rmin_glb; lra.
Qed.

Lemma pressure_colour_in_range (mode : string) (p m M v : R) :
  String.eqb mode "velocity" = false ->
  m <= v <= M ->
  0 < Rmax (Rabs (M - p)) (Rabs (m - p)) ->
  let deviation := Rmax (Rabs (M - p)) (Rabs (m - p)) in
  let '(r, g, b) :=
    FieldView.fieldColor mode (p - deviation * 1.2) (p + deviation * 1.2) v in
  0 <= r <= 1 /\ 0 <= g <= 1 /\ 0 <= b <= 1.
Proof.
  intros Hmode Hv Hdev deviation. fold deviation in Hdev.
  unfold FieldView.fieldColor. rewrite Hmode.
  assert (Hd1 : M - p <= deviation).
  { apply Rle_trans with (Rabs (M - p)); [apply Rle_abs | apply Rmax_l]. }
  assert (Hd2 : p - m <= deviation).
  { apply Rle_trans with (Rabs (m - p)); [| apply Rmax_r].
    rewrite <- Rabs_Ropp. replace (- (m - p)) with (p - m) by lra. apply Rle_abs. }
  set (lo := p - deviation * 1.2). set (hi := p + deviation * 1.2).
  set (t := (v - lo) / (hi - lo)).
  assert (Hd : 0 < hi - lo) by (unfold hi, lo; lra).
  assert (E : t * (hi - lo) = v - lo).
  { unfold t, Rdiv. rewrite Rmult_assoc, Rinv_l by lra. lra. }
  assert (Ht : 0 <= t <= 1).
  { split.
    - unfold t. apply Rmult_le_pos; [unfold lo; lra |].
      left. now apply Rinv_0_lt_compat.
    - apply Rmult_le_reg_r with (hi - lo); [exact Hd |]. rewrite E. unfold hi, lo. lra. }
  assert (Ha : Rabs (t - 0.5) <= 0.5) by (apply Rabs_le; lra).
  repeat split; try apply Rmin_l; apply Rmin_glb; lra.
Qed.

Lemma speed_sample_nonneg (mode : string) (params : JS.SimulationParams)
    (objectPos : Vec3) (positions : list R) (i : nat) :
  String.eqb mode "velocity" = true ->
  0 <= FieldView.sampleValue mode params objectPos positions i.
Proof.
  intros Hmode. unfold FieldView.sampleValue. destruct objectPos as [[ox oy] oz].
  unfold FieldView.fieldValue.
  destruct (FieldView.fieldVelocity _ _ _ _ _) as [[vx vy] vz].
  rewrite Hmode. apply sqrt_pos.
Qed.

(** X17. [calculateFieldColors] writes valid colours: provided the samples
    are not all at the reference value (zero speed in 'velocity' mode, the
    free-stream pressure 0.5*rho*U^2 otherwise; the normalisation divides
    by zero in that case), every red, green and blue component written for
    a sample lies between 0 and 1, and the colour array keeps its
    length. *)
Theorem field_colours_are_valid
    (mode : string) (params : JS.SimulationParams) (simulationObject : option Vec3)
    (positions colors : list R) (pointCount : nat) :
  (pointCount * 3 <= length colors)%nat ->
  let reference :=
    if String.eqb mode "velocity" then 0
    else 0.5 * JS.fluidDensity params * JS.freeStreamVelocity params
         * JS.freeStreamVelocity params in
  (exists j, (j < pointCount)%nat
             /\ FieldView.sampleValue mode params (default (0, 0, 0) simulationObject)
                  positions j <> reference) ->
  let result :=
    FieldView.calculateFieldColors mode params simulationObject positions colors
      pointCount in
  length result = length colors
  /\ forall i, (i < pointCount)%nat ->
       let '(r, g, b) := get3 result i in
       0 <= r <= 1 /\ 0 <= g <= 1 /\ 0 <= b <= 1.
Proof.
  intros Hlen reference (j & Hj & Hne) result. subst result.
  unfold FieldView.calculateFieldColors. cbv zeta.
  set (objectPos := default (0, 0, 0) simulationObject) in *.
  set (val := FieldView.sampleValue mode params objectPos positions) in *.
  destruct (first_pass_spec val pointCount) as (m & M & values & Eloop & Hall); [lia |].
  cbv zeta in Eloop. rewrite Eloop.
  set (U := JS.freeStreamVelocity params) in *.
  set (rho := JS.fluidDensity params) in *.
  assert (Hcol : forall i, (i < pointCount)%nat ->
            let '(lo, hi) := FieldView.valueRange mode U rho m M in
            let '(r, g, b) := FieldView.fieldColor mode lo hi (getf values i) in
            0 <= r <= 1 /\ 0 <= g <= 1 /\ 0 <= b <= 1).
  { intros i Hi. destruct (Hall i Hi) as (-> & Hm & HM).
    destruct (Hall j Hj) as (_ & Hjm & HjM).
    unfold FieldView.valueRange. subst reference.
    destruct (String.eqb mode "velocity") eqn:Hmode.
    - apply String.eqb_eq in Hmode. subst mode.
      pose proof (speed_sample_nonneg "velocity" params objectPos positions i eq_refl)
        as Pi.
      pose proof (speed_sample_nonneg "velocity" params objectPos positions j eq_refl)
        as Pj.
      fold val in Pi, Pj. apply velocity_colour_in_range; lra.
    - apply (pressure_colour_in_range mode (0.5 * rho * U * U) m M (val i) Hmode);
        [lra |].
      destruct (Rlt_le_dec (0.5 * rho * U * U) (val j)) as [Hgt | Hle].
      + apply Rlt_le_trans with (Rabs (M - 0.5 * rho * U * U)); [| apply Rmax_l].
        apply Rabs_pos_lt. lra.
      + apply Rlt_le_trans with (Rabs (m - 0.5 * rho * U * U)); [| apply Rmax_r].
        apply Rabs_pos_lt. lra. }
  destruct (FieldView.valueRange mode U rho m M) as [lo hi].
  match goal with |- length (forLoop ?b 0 pointCount colors) = _ /\ _ =>
    destruct (forLoop_slots (list R) Vec3 unit get3 b
                (fun c => length c = length colors)
                (fun i _ _ new => new = FieldView.fieldColor mode lo hi (getf values i))
                pointCount) with (n := pointCount) (start := 0%nat) (s := colors)
      as (Hinv & _ & Hstep)
  end.
  - intros i c Hi Hc. destruct (FieldView.fieldColor _ _ _ _) as [[r g] b].
    now rewrite !length_insert.
  - intros i k c Hi Hc Hk. destruct (FieldView.fieldColor _ _ _ _) as [[r g] b].
    rewrite !(get3_insert_ne _ i k) by lia. reflexivity.
  - intros i c Hi Hc. exists tt. destruct (FieldView.fieldColor _ _ _ _) as [[r g] b].
    apply get3_insert3_eq. lia.
  - lia.
  - reflexivity.
  - split; [exact Hinv |]. intros i Hi.
    destruct (Hstep i) as [_ ->]; [lia |]. exact (Hcol i Hi).
Qed.

Lemma field_colours_are_valid_witness :
  let params :=
    {| JS.freeStreamVelocity := 1; JS.particleCount := 1;
       JS.fluidDensity := 1; JS.objectType := "sphere" |} in
  length (FieldView.calculateFieldColors "velocity" params None [2; 0; 0] [0; 0; 0] 1)
  = 3%nat.
Proof.
  intros params.
  destruct (field_colours_are_valid "velocity" params None [2; 0; 0] [0; 0; 0] 1)
    as [H _].
  - simpl. lia.
  - exists 0%nat. split; [lia |].
    unfold FieldView.sampleValue, FieldView.fieldValue, getf. simpl.
    replace (2 - 0) with 2 by lra. replace (0 - 0) with 0 by lra.
    change (FieldView.fieldVelocity 1 "sphere" 2 0 0)
      with (JS.targetVelocity 1 1 "sphere" 2 0 0).
    rewrite js_sphere_at_2. rewrite (sqrt_sq_nonneg _ 0.875) by lra. lra.
  - exact H.
Defined.

(** ** The compiled pass *)

(** X18. When the Go kernel is selected and returns, the velocity pass
    overwrites each particle's velocity with the kernel's value at its
    relative position (radius 1, kind code from the kind string) and
    leaves the positions alone; for the three obstacle kinds that value is
    the scalar evaluator's undamped target. *)
Theorem compiled_pass_installs_kernel_velocities
    (params : JS.SimulationParams) (ox oy oz : R) (ps : JS.Particles) (i : nat) :
  length (JS.velocities ps) = (JS.particleCount params * 3)%nat ->
  (i < JS.particleCount params)%nat ->
  let ps' := JS.velocityPhase JS.goEvaluator params (ox, oy, oz) true ps in
  let x := getf (JS.positions ps) (i * 3) - ox in
  let y := getf (JS.positions ps) (i * 3 + 1) - oy in
  let z := getf (JS.positions ps) (i * 3 + 2) - oz in
  JS.positions ps' = JS.positions ps
  /\ get3 (JS.velocities ps') i
     = Go.velocityAt (JS.freeStreamVelocity params) (JS.fluidDensity params)
         (JS.kindCode (JS.objectType params)) 1 x y z
  /\ (In (JS.objectType params) threeKinds ->
      get3 (JS.velocities ps') i
      = JS.targetVelocity (JS.freeStreamVelocity params) (JS.fluidDensity params)
          (JS.objectType params) x y z).
Proof.
  intros Hlen Hi ps' x y z.
  assert (Hv : get3 (JS.velocities ps') i
               = Go.velocityAt (JS.freeStreamVelocity params) (JS.fluidDensity params)
                   (JS.kindCode (JS.objectType params)) 1 x y z).
  { subst ps'. unfold JS.velocityPhase, JS.goEvaluator.
    destruct (js_copyVelocities_slots (JS.particleCount params)
                (Go.updateVelocities (JS.positions ps) (JS.particleCount params)
                   (JS.freeStreamVelocity params) (JS.fluidDensity params) ox oy oz
                   (JS.kindCode (JS.objectType params)) 1) ps Hlen) as (_ & _ & Hslot).
    rewrite (Hslot i Hi). now apply go_updateVelocities_slots. }
  split.
  - destruct (velocityPhase_shape JS.goEvaluator params (ox, oy, oz) true ps Hlen)
      as [H _]. exact H.
  - split; [exact Hv |]. intros Hkind. rewrite Hv. now apply go_js_pointwise.
Qed.

Lemma compiled_pass_installs_kernel_velocities_witness :
  let params :=
    {| JS.freeStreamVelocity := 1; JS.particleCount := 1;
       JS.fluidDensity := 1; JS.objectType := "sphere" |} in
  let ps := {| JS.positions := [2; 0; 0]; JS.velocities := [5; 5; 5] |} in
  get3 (JS.velocities (JS.velocityPhase JS.goEvaluator params (0, 0, 0) true ps)) 0
  = Go.velocityAt 1 1 (JS.kindCode "sphere") 1
      (getf [2; 0; 0] 0 - 0) (getf [2; 0; 0] 1 - 0) (getf [2; 0; 0] 2 - 0).
Proof.
  intros params ps.
  destruct (compiled_pass_installs_kernel_velocities params 0 0 0 ps 0)
    as (_ & H & _).
  - reflexivity.
  - simpl. lia.
  - exact H.
Defined.
